(** * Tree Cost Calculator: pricing engine and quote store

    A shallow embedding of [src/App.tsx] (the [useLocalStorage] hook, the
    [CalculatorView] pricing arithmetic with [addTree], [removeTree] and
    [saveQuote], and [HistoryView]'s [deleteQuote]), followed by the
    properties of the specification stated and settled against it.

    JavaScript numbers are IEEE 754 binary64 values; they are modelled by
    Rocq's primitive floats, whose operations are the same binary64
    operations.  The pricing formulas are written over an interface of the
    arithmetic they use, whose instance is binary64. *)

From Stdlib Require Import Floats ZArith DecimalString.
From stdpp Require Import base strings list gmap.

Set Warnings "-inexact-float,-register-all".

(** ** The arithmetic used by the source *)

(** The operations and literals [App.tsx] applies to values of type
    [number]: the literals [0], [100] and [12.56], the four arithmetic
    operators, the comparison [>] and truthiness (as in [!currentVolume]). *)
Class Number (N : Type) := {
  num_0 : N;
  num_100 : N;
  num_12_56 : N;
  num_add : N -> N -> N;
  num_sub : N -> N -> N;
  num_mul : N -> N -> N;
  num_div : N -> N -> N;
  num_gt : N -> N -> bool;
  num_truthy : N -> bool
}.

Declare Scope num_scope.
Delimit Scope num_scope with num.
Infix "+" := num_add : num_scope.
Infix "-" := num_sub : num_scope.
Infix "*" := num_mul : num_scope.
Infix "/" := num_div : num_scope.
Notation "x >? y" := (num_gt x y) (at level 70, no associativity) : num_scope.

(** binary64, the arithmetic the program runs on.  A number is falsy when it
    is [+0], [-0] or [NaN]. *)
#[export] Instance float_Number : Number float := {
  num_0 := 0%float;
  num_100 := 100%float;
  num_12_56 := 12.56%float;
  num_add := PrimFloat.add;
  num_sub := PrimFloat.sub;
  num_mul := PrimFloat.mul;
  num_div := PrimFloat.div;
  num_gt := fun x y => PrimFloat.ltb y x;
  num_truthy := fun x => negb (PrimFloat.is_zero x || PrimFloat.is_nan x)
}.

(** ** [Number.prototype.toFixed(2)] on binary64 *)

(** The integer [n] for which [n / 100 - |x|] is closest to zero, the larger
    one on a tie (ECMA-262, Number.prototype.toFixed), computed on the exact
    value [m * 2^e] of a finite double. *)
Definition hundredths (m : positive) (e : Z) : Z :=
  if (0 <=? e)%Z then Z.pos m * 2 ^ e * 100
  else (2 * (Z.pos m * 100) + 2 ^ (- e)) / (2 * 2 ^ (- e)).

Definition two_digits (n : Z) : string :=
  let s := NilZero.string_of_uint (N.to_uint (Z.to_N n)) in
  if (n <? 10)%Z then "0" +:+ s else s.

(** [x.toFixed(2)].  Values of magnitude [10^21] or more are printed by
    JavaScript in exponent notation, which is not modelled: [None]. *)
Definition toFixed2 (x : float) : option string :=
  match Prim2SF x with
  | S754_nan => Some "NaN"
  | S754_infinity s => Some (if s then "-Infinity" else "Infinity")
  | S754_zero _ => Some "0.00"
  | S754_finite s m e =>
      let n := hundredths m e in
      if (10 ^ 23 <=? n)%Z then None
      else Some ((if s then "-" else "")
                 +:+ NilZero.string_of_uint (N.to_uint (Z.to_N (n / 100)))
                 +:+ "." +:+ two_digits (n mod 100))
  end.

(** ** Models *)

Module TreeItem.
Record t (N : Type) := mk {
  id : string;
  circumference : N;
  height : N;
  notes : string
}.
Arguments mk {N}.
Arguments id {N}.
Arguments circumference {N}.
Arguments height {N}.
Arguments notes {N}.
End TreeItem.

Module Quote.
Record t (N : Type) := mk {
  id : string;
  date : string;
  subtotal : N;
  taxAmount : N;
  discountAmount : N;
  total : N;
  trees : list (TreeItem.t N);
  customerName : option string
}.
Arguments mk {N}.
Arguments id {N}.
Arguments date {N}.
Arguments subtotal {N}.
Arguments taxAmount {N}.
Arguments discountAmount {N}.
Arguments total {N}.
Arguments trees {N}.
Arguments customerName {N}.
End Quote.

(** What a handler asks of the browser besides updating component state.
    [SetItem key value] is the hook's
    [window.localStorage.setItem(key, JSON.stringify(value))] for the one
    slot the views write, the quote history; [Alert] is [alert(message)]. *)
Inductive Effect (N : Type) : Type :=
  | SetItem (key : string) (value : list (Quote.t N))
  | Alert (message : string).
Arguments SetItem {N}.
Arguments Alert {N}.

(** ** [CalculatorView] *)

Module CalculatorView.

(** The values the component holds between renders: the six settings and
    the history read through [useLocalStorage], and the form state.  The
    text fields [circumference], [height] and [discountPercent] are only
    ever used through [Number(...)]; they are represented by the number
    read from them, the empty text reading as [0]. *)
Record State (N : Type) := mkState {
  startingFee : N;
  pricePerCubicFoot : N;
  taxRate : N;
  showTax : bool;
  showDiscount : bool;
  defaultDiscount : N;
  history : list (Quote.t N);
  circumference : N;
  height : N;
  trees : list (TreeItem.t N);
  discountPercent : N
}.
Arguments mkState {N}.
Arguments startingFee {N}.
Arguments pricePerCubicFoot {N}.
Arguments taxRate {N}.
Arguments showTax {N}.
Arguments showDiscount {N}.
Arguments defaultDiscount {N}.
Arguments history {N}.
Arguments circumference {N}.
Arguments height {N}.
Arguments trees {N}.
Arguments discountPercent {N}.

(** The values [crypto.randomUUID()] and [new Date().toISOString()] return
    during one call of a handler, in the order the handler asks for them. *)
Record Fresh := mkFresh {
  uuid1 : string;
  now : string;
  uuid2 : string
}.

Section View.
Context {N : Type} `{Number N}.
Local Open Scope num_scope.

Definition currentVolume (st : State N) : N :=
  if (circumference st >? num_0) && (height st >? num_0)
  then (circumference st * circumference st * height st) / num_12_56
  else num_0.

(** [trees.reduce((acc, tree) => acc + ..., 0)] *)
Definition reduceVolume (l : list (TreeItem.t N)) : N :=
  fold_left
    (fun acc tree =>
       acc + (TreeItem.circumference tree * TreeItem.circumference tree
              * TreeItem.height tree) / num_12_56)
    l num_0.

Definition totalVolume (st : State N) : N :=
  reduceVolume (trees st) + currentVolume st.

Definition subtotal (st : State N) : N :=
  (totalVolume st * pricePerCubicFoot st) + startingFee st.

Definition discountAmount (st : State N) : N :=
  if showDiscount st then subtotal st * (discountPercent st / num_100)
  else num_0.

Definition taxableAmount (st : State N) : N :=
  subtotal st - discountAmount st.

Definition taxAmount (st : State N) : N :=
  if showTax st then taxableAmount st * (taxRate st / num_100)
  else num_0.

Definition total (st : State N) : N :=
  taxableAmount st + taxAmount st.

Definition with_form (st : State N) (c h : N) (ts : list (TreeItem.t N))
    (hist : list (Quote.t N)) : State N :=
  mkState (startingFee st) (pricePerCubicFoot st) (taxRate st)
          (showTax st) (showDiscount st) (defaultDiscount st)
          hist c h ts (discountPercent st).

Definition addTree (uuid : string) (st : State N) : State N :=
  if negb (num_truthy (currentVolume st)) then st
  else with_form st num_0 num_0
         (trees st ++ [TreeItem.mk uuid (circumference st) (height st) ""])
         (history st).

Definition removeTree (id : string) (st : State N) : State N :=
  with_form st (circumference st) (height st)
    (filter (fun t => TreeItem.id t <> id) (trees st))
    (history st).

(** The object literal built at the start of [saveQuote]. *)
Definition newQuote (env : Fresh) (st : State N) : Quote.t N :=
  Quote.mk (uuid1 env) (now env)
    (subtotal st) (taxAmount st) (discountAmount st) (total st)
    (if (0 <? length (trees st))%nat then trees st
     else if currentVolume st >? num_0
          then [TreeItem.mk (uuid2 env) (circumference st) (height st) ""]
          else [])
    None.

Definition saveQuote (env : Fresh) (st : State N)
    : State N * list (Effect N) :=
  let quote := newQuote env st in
  if (length (Quote.trees quote) =? 0)%nat then (st, [])
  else (with_form st num_0 num_0 [] (quote :: history st),
        [SetItem "quoteHistory" (quote :: history st);
         Alert "Quote saved to history!"]).

(** The state of a freshly mounted view: empty inputs, no tree, and the
    discount field initialised with [defaultDiscount.toString()].  Read
    back with [Number(...)] that text gives the number itself, except that
    the text of [-0] is ["0"]: on doubles this is [defaultDiscount + 0]. *)
Definition mount (startingFee pricePerCubicFoot taxRate : N)
    (showTax showDiscount : bool) (defaultDiscount : N)
    (history : list (Quote.t N)) : State N :=
  mkState startingFee pricePerCubicFoot taxRate showTax showDiscount
          defaultDiscount history num_0 num_0 []
          (defaultDiscount + num_0).

(** What the user can do to a mounted view: edit one of the three inputs
    (the argument is the number read from the new text), add the pending
    tree, remove a listed tree, save. *)
Inductive Action :=
  | SetCircumference (x : N)
  | SetHeight (x : N)
  | SetDiscountPercent (x : N)
  | AddTree (uuid : string)
  | RemoveTree (id : string)
  | SaveQuote (env : Fresh).

Definition step (st : State N) (a : Action) : State N :=
  match a with
  | SetCircumference x => with_form st x (height st) (trees st) (history st)
  | SetHeight x => with_form st (circumference st) x (trees st) (history st)
  | SetDiscountPercent x =>
      mkState (startingFee st) (pricePerCubicFoot st) (taxRate st)
              (showTax st) (showDiscount st) (defaultDiscount st)
              (history st) (circumference st) (height st) (trees st) x
  | AddTree uuid => addTree uuid st
  | RemoveTree id => removeTree id st
  | SaveQuote env => fst (saveQuote env st)
  end.

Definition run (st : State N) (actions : list Action) : State N :=
  fold_left step actions st.

End View.
End CalculatorView.

(** ** [HistoryView] *)

Module HistoryView.
Section View.
Context {N : Type}.

(** [confirmed] is the answer of [confirm('Delete this quote?')]. *)
Definition deleteQuote (confirmed : bool) (id : string)
    (history : list (Quote.t N)) : list (Quote.t N) * list (Effect N) :=
  if confirmed
  then let history' := filter (fun h => Quote.id h <> id) history in
       (history', [SetItem "quoteHistory" history'])
  else (history, []).

End View.
End HistoryView.

(** ** The [useLocalStorage] hook *)

(** The values [JSON.parse] can return. *)
Inductive JSValue : Type :=
  | JNull
  | JBool (b : bool)
  | JNumber (x : float)
  | JString (s : string)
  | JArray (items : list JSValue)
  | JObject (fields : list (string * JSValue)).

(** [typeof], as far as it separates the values above. *)
Inductive JSType := TObject | TBoolean | TNumber | TString.

Definition typeof (v : JSValue) : JSType :=
  match v with
  | JBool _ => TBoolean
  | JNumber _ => TNumber
  | JString _ => TString
  | JNull | JArray _ | JObject _ => TObject
  end.

(** The argument of the setter: a value, or a function of the old value. *)
Inductive Update :=
  | Value (v : JSValue)
  | Updater (f : JSValue -> JSValue).

Module useLocalStorage.

(** [window.localStorage]: a finite map from keys to texts; [getItem]
    answers [null] for a key that is not there. *)
Abbreviation Storage := (gmap string string).

Section Hook.
(** [JSON.parse] ([None] when it throws) and [JSON.stringify] belong to
    the platform; the hook is read for any pair of them. *)
Variable JSON_parse : string -> option JSValue.
Variable JSON_stringify : JSValue -> string.

(** The initialiser passed to [useState].  [window] is [None] when
    [typeof window === 'undefined']. *)
Definition initial (window : option Storage) (key : string)
    (initialValue : JSValue) : JSValue :=
  match window with
  | None => initialValue
  | Some localStorage =>
      match localStorage !! key with
      | None => initialValue
      | Some item =>
          if decide (item = "") then initialValue
          else match JSON_parse item with
               | Some v => v
               | None => initialValue
               end
      end
  end.

(** [setValue]: the new stored value and the storage after the call.
    [setItem] is taken to succeed. *)
Definition setValue (window : option Storage) (key : string)
    (storedValue : JSValue) (value : Update)
    : JSValue * option Storage :=
  let valueToStore :=
    match value with
    | Updater f => f storedValue
    | Value v => v
    end in
  (valueToStore,
   match window with
   | Some localStorage =>
       Some (<[key := JSON_stringify valueToStore]> localStorage)
   | None => None
   end).

(** The six settings as [CalculatorView] reads them when it mounts. *)
Record Settings := mkSettings {
  startingFee : JSValue;
  pricePerCubicFoot : JSValue;
  taxRate : JSValue;
  showTax : JSValue;
  showDiscount : JSValue;
  defaultDiscount : JSValue
}.

Definition settings (window : option Storage) : Settings :=
  mkSettings
    (initial window "startingFee" (JNumber 0))
    (initial window "pricePerCubicFoot" (JNumber 10))
    (initial window "taxRate" (JNumber 0))
    (initial window "showTaxCalculator" (JBool false))
    (initial window "showDiscount" (JBool false))
    (initial window "defaultDiscountPercent" (JNumber 0)).

End Hook.

(** A reader and a printer that agree with JSON on its three keyword
    literals, for evaluating the hook on stores that hold only those. *)
Definition keyword_parse (s : string) : option JSValue :=
  if decide (s = "true") then Some (JBool true)
  else if decide (s = "false") then Some (JBool false)
  else if decide (s = "null") then Some JNull
  else None.

Definition keyword_stringify (v : JSValue) : string :=
  match v with
  | JBool true => "true"
  | JBool false => "false"
  | _ => "null"
  end.

End useLocalStorage.

(** ** The formulas of the specification *)

(** The pricing engine as the specification words it: [treeVolume] with its
    guard, and [computeBreakdown] over a list of trees, a configuration and
    an effective discount percent.  The sum over the trees is taken from
    left to right, starting from [0]. *)
Module Spec.

Record PricingConfig (N : Type) := mkConfig {
  startingFee : N;
  pricePerCubicFoot : N;
  taxRate : N;
  showTax : bool;
  defaultDiscountPercent : N;
  showDiscount : bool
}.
Arguments mkConfig {N}.
Arguments startingFee {N}.
Arguments pricePerCubicFoot {N}.
Arguments taxRate {N}.
Arguments showTax {N}.
Arguments defaultDiscountPercent {N}.
Arguments showDiscount {N}.

Record PriceBreakdown (N : Type) := mkBreakdown {
  subtotal : N;
  discountAmount : N;
  taxableAmount : N;
  taxAmount : N;
  total : N
}.
Arguments mkBreakdown {N}.
Arguments subtotal {N}.
Arguments discountAmount {N}.
Arguments taxableAmount {N}.
Arguments taxAmount {N}.
Arguments total {N}.

Section Engine.
Context {N : Type} `{Number N}.
Local Open Scope num_scope.

Definition treeVolume (c h : N) : N :=
  if (c >? num_0) && (h >? num_0) then (c * c * h) / num_12_56
  else num_0.

Definition sumVolume (trees : list (TreeItem.t N)) : N :=
  fold_left
    (fun acc t =>
       acc + treeVolume (TreeItem.circumference t) (TreeItem.height t))
    trees num_0.

Definition computeBreakdown (trees : list (TreeItem.t N))
    (config : PricingConfig N) (discountPercent : N)
    : PriceBreakdown N :=
  let subtotal :=
    sumVolume trees * pricePerCubicFoot config + startingFee config in
  let discountAmount :=
    if showDiscount config then subtotal * (discountPercent / num_100)
    else num_0 in
  let taxableAmount := subtotal - discountAmount in
  let taxAmount :=
    if showTax config then taxableAmount * (taxRate config / num_100)
    else num_0 in
  mkBreakdown subtotal discountAmount taxableAmount taxAmount
    (taxableAmount + taxAmount).

(** Field-by-field sum of two breakdowns. *)
Definition plus (a b : PriceBreakdown N) : PriceBreakdown N :=
  mkBreakdown (subtotal a + subtotal b)
    (discountAmount a + discountAmount b)
    (taxableAmount a + taxableAmount b)
    (taxAmount a + taxAmount b)
    (total a + total b).

End Engine.
End Spec.

(** The configuration a [CalculatorView] state carries, and the breakdown
    its render computes. *)
Definition config_of {N : Type} (st : CalculatorView.State N)
    : Spec.PricingConfig N :=
  Spec.mkConfig (CalculatorView.startingFee st)
    (CalculatorView.pricePerCubicFoot st) (CalculatorView.taxRate st)
    (CalculatorView.showTax st) (CalculatorView.defaultDiscount st)
    (CalculatorView.showDiscount st).

Definition breakdown_of {N : Type} `{Number N} (st : CalculatorView.State N)
    : Spec.PriceBreakdown N :=
  Spec.mkBreakdown (CalculatorView.subtotal st)
    (CalculatorView.discountAmount st) (CalculatorView.taxableAmount st)
    (CalculatorView.taxAmount st) (CalculatorView.total st).

(** The breakdown stored in a quote (a quote keeps no taxable amount). *)
Definition stored_amounts {N : Type} (q : Quote.t N) : N * N * N * N :=
  (Quote.subtotal q, Quote.discountAmount q, Quote.taxAmount q,
   Quote.total q).

Definition amounts {N : Type} (b : Spec.PriceBreakdown N) : N * N * N * N :=
  (Spec.subtotal b, Spec.discountAmount b, Spec.taxAmount b, Spec.total b).

(** A state of the calculator set up from a configuration, a list of trees
    and the pending measurements, with an empty history. *)
Definition calculator {N : Type} (config : Spec.PricingConfig N)
    (discountPercent : N) (trees : list (TreeItem.t N)) (c h : N)
    : CalculatorView.State N :=
  CalculatorView.mkState (Spec.startingFee config)
    (Spec.pricePerCubicFoot config) (Spec.taxRate config)
    (Spec.showTax config) (Spec.showDiscount config)
    (Spec.defaultDiscountPercent config) [] c h trees discountPercent.


(** ** [SettingsView] and [App] *)

(** [ToBoolean], the truthiness [!x] and [x && ...] test. *)
Definition ToBoolean (v : JSValue) : bool :=
  match v with
  | JNull => false
  | JBool b => b
  | JNumber x => negb (PrimFloat.is_zero x || PrimFloat.is_nan x)
  | JString s => if decide (s = "") then false else true
  | JArray _ | JObject _ => true
  end.

Module SettingsView.

(** The seven values the view holds through [useLocalStorage], and the
    storage they are written to. *)
Record State := mkState {
  startingFee : JSValue;
  pricePerCubicFoot : JSValue;
  taxRate : JSValue;
  showTax : JSValue;
  showDiscount : JSValue;
  defaultDiscount : JSValue;
  hasCompletedOnboarding : JSValue;
  window : option useLocalStorage.Storage
}.

Section View.
Variable JSON_parse : string -> option JSValue.
Variable JSON_stringify : JSValue -> string.

Definition mount (w : option useLocalStorage.Storage) : State :=
  mkState
    (useLocalStorage.initial JSON_parse w "startingFee" (JNumber 0))
    (useLocalStorage.initial JSON_parse w "pricePerCubicFoot" (JNumber 10))
    (useLocalStorage.initial JSON_parse w "taxRate" (JNumber 0))
    (useLocalStorage.initial JSON_parse w "showTaxCalculator" (JBool false))
    (useLocalStorage.initial JSON_parse w "showDiscount" (JBool false))
    (useLocalStorage.initial JSON_parse w "defaultDiscountPercent"
       (JNumber 0))
    (useLocalStorage.initial JSON_parse w "hasCompletedOnboarding"
       (JBool true))
    w.

(** The storage after the hook's setter wrote [v] under [key]. *)
Definition written (st : State) (key : string) (old v : JSValue)
    : option useLocalStorage.Storage :=
  snd (useLocalStorage.setValue JSON_stringify (window st) key old (Value v)).

(** [onChange] of the four number inputs: [setX(Number(e.target.value))],
    [x] being the number read from the input. *)
Definition setStartingFee (x : float) (st : State) : State :=
  mkState (JNumber x) (pricePerCubicFoot st) (taxRate st) (showTax st)
    (showDiscount st) (defaultDiscount st) (hasCompletedOnboarding st)
    (written st "startingFee" (startingFee st) (JNumber x)).

Definition setPricePerCubicFoot (x : float) (st : State) : State :=
  mkState (startingFee st) (JNumber x) (taxRate st) (showTax st)
    (showDiscount st) (defaultDiscount st) (hasCompletedOnboarding st)
    (written st "pricePerCubicFoot" (pricePerCubicFoot st) (JNumber x)).

Definition setTaxRate (x : float) (st : State) : State :=
  mkState (startingFee st) (pricePerCubicFoot st) (JNumber x) (showTax st)
    (showDiscount st) (defaultDiscount st) (hasCompletedOnboarding st)
    (written st "taxRate" (taxRate st) (JNumber x)).

Definition setDefaultDiscount (x : float) (st : State) : State :=
  mkState (startingFee st) (pricePerCubicFoot st) (taxRate st) (showTax st)
    (showDiscount st) (JNumber x) (hasCompletedOnboarding st)
    (written st "defaultDiscountPercent" (defaultDiscount st) (JNumber x)).

(** [onClick] of the two switches: [setShowTax(!showTax)] and
    [setShowDiscount(!showDiscount)]. *)
Definition toggleShowTax (st : State) : State :=
  mkState (startingFee st) (pricePerCubicFoot st) (taxRate st)
    (JBool (negb (ToBoolean (showTax st))))
    (showDiscount st) (defaultDiscount st) (hasCompletedOnboarding st)
    (written st "showTaxCalculator" (showTax st)
       (JBool (negb (ToBoolean (showTax st))))).

Definition toggleShowDiscount (st : State) : State :=
  mkState (startingFee st) (pricePerCubicFoot st) (taxRate st) (showTax st)
    (JBool (negb (ToBoolean (showDiscount st))))
    (defaultDiscount st) (hasCompletedOnboarding st)
    (written st "showDiscount" (showDiscount st)
       (JBool (negb (ToBoolean (showDiscount st))))).

(** [resetOnboarding], up to the page reload that follows it. *)
Definition resetOnboarding (st : State) : State :=
  mkState (startingFee st) (pricePerCubicFoot st) (taxRate st) (showTax st)
    (showDiscount st) (defaultDiscount st) (JBool false)
    (written st "hasCompletedOnboarding" (hasCompletedOnboarding st)
       (JBool false)).

End View.
End SettingsView.

Module App.

Inductive Tab := calculator | history | settings.

Inductive Screen :=
  | Onboarding
  | Main (tab : Tab).

Record State := mkState {
  hasCompletedOnboarding : JSValue;
  activeTab : Tab;
  window : option useLocalStorage.Storage
}.

Section View.
Variable JSON_parse : string -> option JSValue.
Variable JSON_stringify : JSValue -> string.

Definition mount (w : option useLocalStorage.Storage) : State :=
  mkState
    (useLocalStorage.initial JSON_parse w "hasCompletedOnboarding"
       (JBool false))
    calculator w.

(** What [App] renders. *)
Definition screen (st : State) : Screen :=
  if negb (ToBoolean (hasCompletedOnboarding st)) then Onboarding
  else Main (activeTab st).

(** [onComplete] of the onboarding view:
    [setHasCompletedOnboarding(true)]. *)
Definition onComplete (st : State) : State :=
  mkState (JBool true) (activeTab st)
    (snd (useLocalStorage.setValue JSON_stringify (window st)
            "hasCompletedOnboarding" (hasCompletedOnboarding st)
            (Value (JBool true)))).

Definition setActiveTab (tab : Tab) (st : State) : State :=
  mkState (hasCompletedOnboarding st) tab (window st).

End View.
End App.

(** ** Vocabulary of the statements *)

(** The sign bit of a binary64 value is clear, or the value is [NaN]. *)
Definition sign_clear (x : spec_float) : bool :=
  match x with
  | S754_zero s | S754_infinity s | S754_finite s _ _ => negb s
  | S754_nan => true
  end.

(** A tree whose two measurements are positive, as [addTree] requires of the
    pending measurements before it creates an item. *)
Definition measured {N : Type} `{Number N} (t : TreeItem.t N) : bool :=
  num_gt (TreeItem.circumference t) num_0
  && num_gt (TreeItem.height t) num_0.

(** The tree [saveQuote] builds from the pending measurements. *)
Definition pendingTree {N : Type} (id : string) (st : CalculatorView.State N)
    : TreeItem.t N :=
  TreeItem.mk id (CalculatorView.circumference st)
    (CalculatorView.height st) "".

(** The history after [saveQuote]. *)
Definition saved {N : Type} `{Number N} (env : CalculatorView.Fresh)
    (st : CalculatorView.State N) : list (Quote.t N) :=
  CalculatorView.history (fst (CalculatorView.saveQuote env st)).

(** Inputs of the examples: the documented default settings, the settings
    of the two-tree scenario, and its two trees. *)
Definition defaults : Spec.PricingConfig float :=
  Spec.mkConfig 0%float 10%float 0%float false 0%float false.

Definition scenario : Spec.PricingConfig float :=
  Spec.mkConfig 20%float 8%float 5%float true 10%float true.

Definition tree_10_6 : TreeItem.t float :=
  TreeItem.mk "a" 10%float 6%float "".

Definition tree_5_8 : TreeItem.t float :=
  TreeItem.mk "b" 5%float 8%float "".

Definition stamps : CalculatorView.Fresh :=
  CalculatorView.mkFresh "q" "2024-01-01T00:00:00.000Z" "t".

(** A slot the hook cannot read: there is no [window], the key is absent,
    the text is empty, or [JSON.parse] throws on it. *)
Definition unreadable (JSON_parse : string -> option JSValue)
    (window : option useLocalStorage.Storage) (key : string) : Prop :=
  match window with
  | None => True
  | Some localStorage =>
      match localStorage !! key with
      | None => True
      | Some item => item = "" \/ JSON_parse item = None
      end
  end.

(** The documented defaults of the six settings. *)
Definition default_settings : useLocalStorage.Settings :=
  useLocalStorage.mkSettings (JNumber 0) (JNumber 10) (JNumber 0)
    (JBool false) (JBool false) (JNumber 0).

Definition settings_keys : list string :=
  ["startingFee"; "pricePerCubicFoot"; "taxRate"; "showTaxCalculator";
   "showDiscount"; "defaultDiscountPercent"].

(** Two saved quotes and a state with a history, for the examples. *)
Definition quote_a : Quote.t float :=
  Quote.mk "a" "2024-01-01T00:00:00.000Z" 1%float 0%float 0%float 1%float
    [tree_10_6] None.

Definition quote_b : Quote.t float :=
  Quote.mk "b" "2024-01-02T00:00:00.000Z" 2%float 0%float 0%float 2%float
    [tree_5_8] None.

Definition with_history : CalculatorView.State float :=
  CalculatorView.with_form (calculator defaults 0%float [] 10%float 6%float)
    10%float 6%float [] [quote_a; quote_b].
(** * Facts about binary64 arithmetic *)

Module Binary64.

Lemma round_aux_sign_clear m e l :
  sign_clear (binary_round_aux prec emax false m e l) = true.
Proof.
  unfold binary_round_aux.
  destruct (shr_fexp prec emax m e l) as [mrs' e'].
  destruct (shr_fexp prec emax _ e' loc_Exact) as [mrs'' e''].
  destruct (shr_m mrs''); simpl; try reflexivity.
  destruct (Z.leb e'' _); reflexivity.
Qed.

Lemma mul_sign_clear x y :
  sign_clear x = true -> sign_clear y = true ->
  sign_clear (SF64mul x y) = true.
Proof.
  destruct x as [[]|[]| |[] mx ex], y as [[]|[]| |[] my ey];
    simpl; try discriminate; try reflexivity.
  intros _ _. apply round_aux_sign_clear.
Qed.

Lemma div_sign_clear x y :
  sign_clear x = true -> sign_clear y = true ->
  sign_clear (SF64div x y) = true.
Proof.
  destruct x as [[]|[]| |[] mx ex], y as [[]|[]| |[] my ey];
    simpl; try discriminate; try reflexivity.
  intros _ _. unfold SF64div, SFdiv.
  destruct (SFdiv_core_binary prec emax (Z.pos mx) ex (Z.pos my) ey)
    as [[mz ez] lz].
  apply round_aux_sign_clear.
Qed.

Lemma add_sign_clear x y :
  sign_clear x = true -> sign_clear y = true ->
  sign_clear (SF64add x y) = true.
Proof.
  destruct x as [[]|[]| |[] mx ex], y as [[]|[]| |[] my ey];
    simpl; try discriminate; try reflexivity.
  intros _ _. unfold SF64add, SFadd, binary_normalize, cond_Zopp.
  cbn [Z.add]. unfold binary_round.
  destruct (shl_align _ _ _) as [mz ez].
  apply round_aux_sign_clear.
Qed.

(** [x + 0] is [x] unless [x] is [-0]. *)
Lemma add_zero_r (x : float) :
  sign_clear (Prim2SF x) = true -> (x + 0)%float = x.
Proof.
  intros Hx. apply Prim2SF_inj. rewrite add_spec.
  change (Prim2SF 0%float) with (S754_zero false).
  destruct (Prim2SF x) as [[]|[]| |[] mx ex]; simpl in *;
    try discriminate; reflexivity.
Qed.

Lemma gt_zero_sign_clear (x : float) :
  (0 <? x)%float = true -> sign_clear (Prim2SF x) = true.
Proof.
  rewrite ltb_spec. change (Prim2SF 0%float) with (S754_zero false).
  destruct (Prim2SF x) as [[]|[]| |[] mx ex]; simpl;
    try discriminate; reflexivity.
Qed.

(** [c <= 0] excludes [c > 0], also for infinities and [NaN]. *)
Lemma le_zero_not_gt (x : float) :
  (x <=? 0)%float = true -> (0 <? x)%float = false.
Proof.
  rewrite leb_spec, ltb_spec.
  change (Prim2SF 0%float) with (S754_zero false).
  destruct (Prim2SF x) as [[]|[]| |[] mx ex]; simpl;
    try discriminate; reflexivity.
Qed.

(** Two doubles with different binary64 readings are different. *)
Lemma differ (x y : float) : Prim2SF x <> Prim2SF y -> x <> y.
Proof. intros Hd Heq. apply Hd. now rewrite Heq. Qed.

(** A finite double is a zero or has a mantissa and an exponent. *)
Lemma finite_cases (x : float) :
  is_finite x = true ->
  (exists s, Prim2SF x = S754_zero s)
  \/ (exists s m e, Prim2SF x = S754_finite s m e).
Proof.
  unfold is_finite, is_nan, is_infinity.
  rewrite !FloatAxioms.eqb_spec, abs_spec.
  change (Prim2SF infinity) with (S754_infinity false).
  destruct (Prim2SF x) as [s|[]| |s m e]; simpl; try discriminate.
  - intros _. left. now exists s.
  - intros _. right. now exists s, m, e.
Qed.

Lemma SFeqb_finite_refl s m e :
  SFeqb (S754_finite s m e) (S754_finite s m e) = true.
Proof.
  unfold SFeqb, SFcompare.
  rewrite Z.compare_refl, Pos.compare_cont_refl.
  now destruct s.
Qed.

(** [0 * p + fee] is [fee], up to the sign of a zero, when [p] is finite
    and [fee] is at least [0]. *)
Lemma zero_mul_add (p fee : float) :
  is_finite p = true -> (0 <=? fee)%float = true ->
  (0 * p + fee =? fee)%float = true.
Proof.
  intros Hp Hfee.
  rewrite FloatAxioms.eqb_spec, add_spec, mul_spec.
  rewrite leb_spec in Hfee.
  change (Prim2SF 0%float) with (S754_zero false) in *.
  assert (Hz : exists s, SF64mul (S754_zero false) (Prim2SF p) = S754_zero s).
  { destruct (finite_cases p Hp) as [[s ->]|(s & m & e & ->)];
      simpl; eauto. }
  destruct Hz as [s ->].
  destruct (Prim2SF fee) as [sf|[]| |[] m e]; simpl in *;
    try discriminate.
  - now destruct s, sf.
  - reflexivity.
  - apply SFeqb_finite_refl.
Qed.

(** [0 + x] is [x] unless [x] is [-0]. *)
Lemma add_zero_l (x : float) :
  sign_clear (Prim2SF x) = true -> (0 + x)%float = x.
Proof.
  intros Hx. apply Prim2SF_inj. rewrite add_spec.
  change (Prim2SF 0%float) with (S754_zero false).
  destruct (Prim2SF x) as [[]|[]| |[] mx ex]; simpl in *;
    try discriminate; reflexivity.
Qed.

(** [x - 0 + 0] is [x], up to the sign of a zero, unless [x] is [NaN]. *)
Lemma sub_add_zero (x : float) :
  is_nan x = false -> (x - 0 + 0 =? x)%float = true.
Proof.
  unfold is_nan. rewrite !FloatAxioms.eqb_spec, add_spec, sub_spec.
  change (Prim2SF 0%float) with (S754_zero false).
  destruct (Prim2SF x) as [[]|[]| |s m e]; simpl;
    try discriminate; try reflexivity.
  intros _. apply SFeqb_finite_refl.
Qed.

End Binary64.

(** [toFixed(2)] on a few values: ties go up, and a double just below a tie
    goes down. *)
Example toFixed2_tie : toFixed2 0.125%float = Some "0.13".
Proof. vm_compute. reflexivity. Qed.

Example toFixed2_below_tie : toFixed2 1.005%float = Some "1.00".
Proof. vm_compute. reflexivity. Qed.

Example toFixed2_negative : toFixed2 (-0.001)%float = Some "-0.00".
Proof. vm_compute. reflexivity. Qed.

Example toFixed2_large : toFixed2 1e21%float = None.
Proof. vm_compute. reflexivity. Qed.

(** * The pricing arithmetic *)

Section Pricing.
Import CalculatorView.
Local Open Scope float_scope.

(** The volume of a tree with positive measurements has a clear sign. *)
Lemma volume_sign_clear (c h : float) :
  (0 <? c) = true -> (0 <? h) = true ->
  sign_clear (Prim2SF (c * c * h / 12.56)) = true.
Proof.
  intros Hc Hh.
  apply Binary64.gt_zero_sign_clear in Hc, Hh.
  rewrite div_spec, !mul_spec.
  apply Binary64.div_sign_clear; [|reflexivity].
  repeat apply Binary64.mul_sign_clear; assumption.
Qed.

Lemma reduce_from_sign_clear (l : list (TreeItem.t float)) (acc : float) :
  Forall (fun t => measured t = true) l ->
  sign_clear (Prim2SF acc) = true ->
  sign_clear (Prim2SF
    (fold_left
       (fun acc tree =>
          acc + TreeItem.circumference tree * TreeItem.circumference tree
                * TreeItem.height tree / 12.56)
       l acc)) = true.
Proof.
  intros Hl. revert acc.
  induction Hl as [|t l Ht _ IH]; intros acc Hacc; simpl; [assumption|].
  apply IH. rewrite add_spec.
  apply Binary64.add_sign_clear; [assumption|].
  unfold measured in Ht. apply andb_prop in Ht as [Hc Hh].
  now apply volume_sign_clear.
Qed.

Lemma reduceVolume_sign_clear (l : list (TreeItem.t float)) :
  Forall (fun t => measured t = true) l ->
  sign_clear (Prim2SF (reduceVolume l)) = true.
Proof. intros Hl. now apply reduce_from_sign_clear. Qed.

End Pricing.

(** On measured trees the guard of [treeVolume] is open: the sum the view
    accumulates is the sum of the specification, in any arithmetic. *)
Lemma reduceVolume_sumVolume {N : Type} `{Number N} (l : list (TreeItem.t N)) :
  Forall (fun t => measured t = true) l ->
  CalculatorView.reduceVolume l = Spec.sumVolume l.
Proof.
  unfold CalculatorView.reduceVolume, Spec.sumVolume.
  intros Hl. generalize (num_0 (N := N)) as acc.
  induction Hl as [|t l Ht _ IH]; intros acc; simpl; [reflexivity|].
  rewrite <- IH. unfold Spec.treeVolume.
  unfold measured in Ht. now rewrite Ht.
Qed.

(** * The claims about the pricing engine *)

Section PricingClaims.
Import CalculatorView.
Local Open Scope float_scope.

Lemma currentVolume_measured (st : State float) :
  (0 <? circumference st) = true -> (0 <? height st) = true ->
  currentVolume st
  = circumference st * circumference st * height st / 12.56.
Proof. unfold currentVolume; simpl. intros -> ->. reflexivity. Qed.

Lemma currentVolume_unmeasured (st : State float) :
  (circumference st <=? 0) = true \/ (height st <=? 0) = true ->
  currentVolume st = 0.
Proof.
  unfold currentVolume; simpl. intros [Hc|Hh].
  - now rewrite (Binary64.le_zero_not_gt _ Hc).
  - rewrite (Binary64.le_zero_not_gt _ Hh). now rewrite andb_false_r.
Qed.

(** C2. The tree volume computed from the pending measurements [c] and
    [h] is [c * c * h / 12.56] when [c > 0] and [h > 0], and [0] when
    [c <= 0] or [h <= 0]. *)
Theorem currentVolume_cases (st : State float) :
  ((0 <? circumference st) = true -> (0 <? height st) = true ->
   currentVolume st
   = circumference st * circumference st * height st / 12.56)
  /\ ((circumference st <=? 0) = true \/ (height st <=? 0) = true ->
      currentVolume st = 0).
Proof.
  split.
  - apply currentVolume_measured.
  - apply currentVolume_unmeasured.
Qed.

Lemma currentVolume_cases_witness :
  currentVolume (calculator defaults 0 [] 10 6) = 10 * 10 * 6 / 12.56
  /\ currentVolume (calculator defaults 0 [] (-3) 6) = 0.
Proof.
  split.
  - exact (proj1 (currentVolume_cases (calculator defaults 0 [] 10 6))
             eq_refl eq_refl).
  - exact (proj2 (currentVolume_cases (calculator defaults 0 [] (-3) 6))
             (or_introl eq_refl)).
Defined.

(** A measurement that is not a number has no volume either. *)
Lemma currentVolume_nan (st : State float) :
  circumference st = nan \/ height st = nan -> currentVolume st = 0.
Proof.
  unfold currentVolume; simpl. intros [-> | ->].
  - reflexivity.
  - now rewrite andb_false_r.
Qed.

(** The volume is never negative zero, and positive only for positive
    measurements. *)
Lemma currentVolume_sign_clear (st : State float) :
  sign_clear (Prim2SF (currentVolume st)) = true.
Proof.
  unfold currentVolume; simpl.
  destruct (0 <? circumference st) eqn:Hc; [|reflexivity].
  destruct (0 <? height st) eqn:Hh; [|reflexivity].
  now apply volume_sign_clear.
Qed.

Lemma currentVolume_positive (st : State float) :
  (0 <? currentVolume st) = true ->
  (0 <? circumference st) = true /\ (0 <? height st) = true.
Proof.
  unfold currentVolume; simpl.
  destruct (0 <? circumference st); [|discriminate].
  destruct (0 <? height st); [|discriminate].
  now split.
Qed.

End PricingClaims.

(** C4. With [showTax] off the tax amount of the breakdown is exactly [0],
    whatever the tax rate, and with [showDiscount] off the discount amount
    is exactly [0], whatever the discount percent; in any arithmetic. *)
Theorem toggles_gate_amounts {N : Type} `{Number N}
    (st : CalculatorView.State N) :
  (CalculatorView.showTax st = false ->
   CalculatorView.taxAmount st = num_0)
  /\ (CalculatorView.showDiscount st = false ->
      CalculatorView.discountAmount st = num_0).
Proof.
  unfold CalculatorView.taxAmount, CalculatorView.discountAmount.
  split; intros ->; reflexivity.
Qed.

Lemma toggles_gate_amounts_witness :
  CalculatorView.taxAmount
    (calculator (Spec.mkConfig 20 8 5 false 10 false)%float 10%float
       [tree_10_6; tree_5_8] 0%float 0%float) = 0%float
  /\ CalculatorView.discountAmount
       (calculator (Spec.mkConfig 20 8 5 false 10 false)%float 10%float
          [tree_10_6; tree_5_8] 0%float 0%float) = 0%float.
Proof.
  split.
  - exact (proj1 (toggles_gate_amounts
                    (calculator (Spec.mkConfig 20 8 5 false 10 false)%float
                       10%float [tree_10_6; tree_5_8] 0%float 0%float))
             eq_refl).
  - exact (proj2 (toggles_gate_amounts
                    (calculator (Spec.mkConfig 20 8 5 false 10 false)%float
                       10%float [tree_10_6; tree_5_8] 0%float 0%float))
             eq_refl).
Defined.

(** * The breakdown against the formulas of the specification *)

(** A render whose total volume is the specification's sum over [ts]
    computes the specification's breakdown over [ts], in any arithmetic. *)
Lemma breakdown_of_volume {N : Type} `{Number N}
    (st : CalculatorView.State N) (ts : list (TreeItem.t N)) :
  CalculatorView.totalVolume st = Spec.sumVolume ts ->
  breakdown_of st
  = Spec.computeBreakdown ts (config_of st) (CalculatorView.discountPercent st).
Proof.
  intros Hv.
  unfold breakdown_of, Spec.computeBreakdown, CalculatorView.total,
    CalculatorView.taxAmount, CalculatorView.taxableAmount,
    CalculatorView.discountAmount, CalculatorView.subtotal.
  rewrite Hv. destruct st; reflexivity.
Qed.

Lemma sumVolume_snoc {N : Type} `{Number N} (ts : list (TreeItem.t N))
    (t : TreeItem.t N) :
  Spec.sumVolume (ts ++ [t])
  = num_add (Spec.sumVolume ts)
      (Spec.treeVolume (TreeItem.circumference t) (TreeItem.height t)).
Proof. unfold Spec.sumVolume. now rewrite fold_left_app. Qed.

(** Two renders with the same total volume, settings and discount percent
    show the same breakdown. *)
Lemma breakdown_of_congr {N : Type} `{Number N}
    (st st' : CalculatorView.State N) :
  CalculatorView.totalVolume st' = CalculatorView.totalVolume st ->
  config_of st' = config_of st ->
  CalculatorView.discountPercent st' = CalculatorView.discountPercent st ->
  breakdown_of st' = breakdown_of st.
Proof.
  intros Hv Hc Hd.
  unfold breakdown_of, CalculatorView.total, CalculatorView.taxAmount,
    CalculatorView.taxableAmount, CalculatorView.discountAmount,
    CalculatorView.subtotal.
  rewrite Hv, Hd.
  destruct st, st'; simpl in *. now inversion Hc.
Qed.

Section BreakdownClaims.
Import CalculatorView.
Local Open Scope float_scope.

(** With a pending measurement of positive volume, the render prices the
    listed trees followed by the pending one. *)
Lemma breakdown_with_pending (st : State float) (id : string) :
  Forall (fun t => measured t = true) (trees st) ->
  breakdown_of st
  = Spec.computeBreakdown
      (if 0 <? currentVolume st then trees st ++ [pendingTree id st]
       else trees st)
      (config_of st) (discountPercent st)
  \/ currentVolume st = nan.
Proof.
  intros Hts.
  destruct (0 <? currentVolume st) eqn:Hcv.
  - left. apply breakdown_of_volume.
    rewrite sumVolume_snoc, <- reduceVolume_sumVolume by assumption.
    reflexivity.
  - pose proof (currentVolume_sign_clear st) as Hs.
    rewrite ltb_spec in Hcv.
    change (Prim2SF 0) with (S754_zero false) in Hcv.
    destruct (Prim2SF (currentVolume st)) as [[]|[]| |[] m e] eqn:Hsf;
      simpl in *; try discriminate.
    + left. apply breakdown_of_volume.
      assert (currentVolume st = 0) as Hz.
      { apply Prim2SF_inj. now rewrite Hsf. }
      unfold totalVolume. rewrite Hz.
      rewrite Binary64.add_zero_r
        by now apply reduceVolume_sign_clear.
      now apply reduceVolume_sumVolume.
    + right. apply Prim2SF_inj. now rewrite Hsf.
Qed.

Lemma breakdown_pending_positive (st : State float) (id : string) :
  Forall (fun t => measured t = true) (trees st) ->
  (0 <? currentVolume st) = true ->
  breakdown_of st
  = Spec.computeBreakdown (trees st ++ [pendingTree id st])
      (config_of st) (discountPercent st).
Proof.
  intros Hts Hcv.
  destruct (breakdown_with_pending st id Hts) as [Hb|Hnan].
  - now rewrite Hcv in Hb.
  - rewrite Hnan in Hcv. discriminate.
Qed.

Lemma breakdown_pending_zero (st : State float) :
  Forall (fun t => measured t = true) (trees st) ->
  currentVolume st = 0 ->
  breakdown_of st
  = Spec.computeBreakdown (trees st) (config_of st) (discountPercent st).
Proof.
  intros Hts Hz.
  destruct (breakdown_with_pending st "" Hts) as [Hb|Hnan].
  - rewrite Hz in Hb. exact Hb.
  - rewrite Hnan in Hz. apply (f_equal Prim2SF) in Hz. discriminate.
Qed.

Lemma empty_subtotal (st : State float) :
  trees st = [] -> currentVolume st = 0 ->
  is_finite (pricePerCubicFoot st) = true ->
  (0 <=? startingFee st) = true ->
  (subtotal st =? startingFee st) = true.
Proof.
  intros Hnil Hz Hp Hfee.
  unfold subtotal, totalVolume. rewrite Hnil, Hz.
  change (reduceVolume [] + 0) with 0.
  now apply Binary64.zero_mul_add.
Qed.

(** C3, as amended.  For measured trees the render's breakdown is the
    specification's breakdown over the listed trees followed by the
    pending measurement when that has positive volume, and over the listed
    trees alone when its volume is [0]; the taxable amount is
    [subtotal - discountAmount] and the total is
    [subtotal - discountAmount + taxAmount], the amounts being rounded to
    cents only for display; and for an empty list with no pending volume
    and a finite price the subtotal equals a starting fee of at least
    [0]. *)
Theorem breakdown_formulas (st : State float) (id : string) :
  Forall (fun t => measured t = true) (trees st) ->
  ((0 <? currentVolume st) = true ->
   breakdown_of st
   = Spec.computeBreakdown (trees st ++ [pendingTree id st])
       (config_of st) (discountPercent st))
  /\ (currentVolume st = 0 ->
      breakdown_of st
      = Spec.computeBreakdown (trees st) (config_of st)
          (discountPercent st))
  /\ taxableAmount st = subtotal st - discountAmount st
  /\ total st = subtotal st - discountAmount st + taxAmount st
  /\ (trees st = [] -> currentVolume st = 0 ->
      is_finite (pricePerCubicFoot st) = true ->
      (0 <=? startingFee st) = true ->
      (subtotal st =? startingFee st) = true).
Proof.
  intros Hts. split; [|split; [|split; [|split]]].
  - now apply breakdown_pending_positive.
  - now apply breakdown_pending_zero.
  - reflexivity.
  - reflexivity.
  - apply empty_subtotal.
Qed.

Lemma breakdown_formulas_witness :
  breakdown_of (calculator scenario 10 [tree_10_6] 5 8)
  = Spec.computeBreakdown [tree_10_6; tree_5_8] scenario 10
  /\ breakdown_of (calculator scenario 10 [tree_10_6; tree_5_8] 0 0)
     = Spec.computeBreakdown [tree_10_6; tree_5_8] scenario 10
  /\ (subtotal (calculator scenario 10 [] 0 0) =? 20) = true.
Proof.
  split; [|split].
  - refine (proj1 (breakdown_formulas
                     (calculator scenario 10 [tree_10_6] 5 8) "b" _) _).
    + repeat constructor.
    + reflexivity.
  - refine (proj1 (proj2 (breakdown_formulas
                     (calculator scenario 10 [tree_10_6; tree_5_8] 0 0)
                     "" _)) _).
    + repeat constructor.
    + reflexivity.
  - refine (proj2 (proj2 (proj2 (proj2 (breakdown_formulas
                     (calculator scenario 10 [] 0 0) "" _))))
              _ _ _ _); try reflexivity.
    constructor.
Defined.

(** C3, counterexample.  With an empty tree list, the default settings and
    pending measurements 10 and 6, the subtotal is not the starting fee: it
    prices the pending tree. *)
Lemma empty_list_subtotal_counterexample :
  trees (calculator defaults 0 [] 10 6) = []
  /\ subtotal (calculator defaults 0 [] 10 6)
     <> startingFee (calculator defaults 0 [] 10 6)
  /\ toFixed2 (subtotal (calculator defaults 0 [] 10 6)) = Some "477.71"
  /\ toFixed2 (startingFee (calculator defaults 0 [] 10 6)) = Some "0.00".
Proof.
  split; [reflexivity|]. split; [|split; vm_compute; reflexivity].
  apply Binary64.differ. vm_compute. discriminate.
Qed.

End BreakdownClaims.

(** * The two-tree scenario *)

Section Scenario.
Import CalculatorView.
Local Open Scope float_scope.

(** C9, as amended.  For the trees (10, 6) and (5, 8) under a starting fee
    of 20, a price of 8, a discount of 10 percent and a tax rate of 5
    percent, both shown, the amounts printed with two decimals are
    subtotal 529.55, discount 52.96, taxable amount 476.60, tax 23.83 and
    total 500.43. *)
Theorem scenario_amounts :
  let st := calculator scenario 10 [tree_10_6; tree_5_8] 0 0 in
  toFixed2 (subtotal st) = Some "529.55"
  /\ toFixed2 (discountAmount st) = Some "52.96"
  /\ toFixed2 (taxableAmount st) = Some "476.60"
  /\ toFixed2 (taxAmount st) = Some "23.83"
  /\ toFixed2 (total st) = Some "500.43".
Proof. vm_compute. repeat split; reflexivity. Qed.

(** C9, counterexample.  The taxable amount and the total of the scenario
    are not 476.59 and 500.42 to two decimals: they print as 476.60 and
    500.43 and lie more than half a cent above the claimed values. *)
Lemma scenario_amounts_counterexample :
  let st := calculator scenario 10 [tree_10_6; tree_5_8] 0 0 in
  toFixed2 (taxableAmount st) <> Some "476.59"
  /\ toFixed2 (total st) <> Some "500.42"
  /\ (0.005 <? taxableAmount st - 476.59) = true
  /\ (0.005 <? total st - 500.42) = true.
Proof. vm_compute. repeat split; discriminate. Qed.

(** C8, counterexample.  Under the scenario's settings the subtotal over
    the two trees together is not the sum of the subtotals over each of
    them: the starting fee of 20 is charged once in the first and twice in
    the second. *)
Lemma additivity_counterexample :
  let together := breakdown_of (calculator scenario 10
                                  ([tree_10_6] ++ [tree_5_8]) 0 0) in
  let apart := Spec.plus
                 (breakdown_of (calculator scenario 10 [tree_10_6] 0 0))
                 (breakdown_of (calculator scenario 10 [tree_5_8] 0 0)) in
  together <> apart
  /\ toFixed2 (Spec.subtotal together) = Some "529.55"
  /\ toFixed2 (Spec.subtotal apart) = Some "549.55".
Proof.
  cbv zeta. split; [|split; vm_compute; reflexivity].
  intros Heq. apply (f_equal Spec.subtotal) in Heq.
  revert Heq. apply Binary64.differ. vm_compute. discriminate.
Qed.

End Scenario.

(** * What remains of additivity *)

Section Append.
Import CalculatorView.
Local Open Scope float_scope.

(** With nothing pending, the total volume is the sum over the list. *)
Lemma totalVolume_listed (config : Spec.PricingConfig float) (d : float)
    (l : list (TreeItem.t float)) :
  Forall (fun t => measured t = true) l ->
  totalVolume (calculator config d l 0 0) = reduceVolume l.
Proof.
  intros Hl. unfold totalVolume.
  change (currentVolume (calculator config d l 0 0)) with 0.
  apply Binary64.add_zero_r. now apply reduceVolume_sign_clear.
Qed.

(** The total volume of a single measured tree is that tree's volume. *)
Lemma totalVolume_single (config : Spec.PricingConfig float) (d : float)
    (t : TreeItem.t float) :
  measured t = true ->
  totalVolume (calculator config d [t] 0 0)
  = TreeItem.circumference t * TreeItem.circumference t * TreeItem.height t
    / 12.56.
Proof.
  intros Ht. rewrite totalVolume_listed by (now constructor).
  unfold reduceVolume; simpl. apply Binary64.add_zero_l.
  unfold measured in Ht. apply andb_prop in Ht as [Hc Hh].
  now apply volume_sign_clear.
Qed.

(** The volume over [A ++ B] is the volume over [A] with the volumes of the
    trees of [B] added to it one by one, in order. *)
Lemma totalVolume_app (config : Spec.PricingConfig float) (d : float)
    (A B : list (TreeItem.t float)) :
  Forall (fun t => measured t = true) A ->
  Forall (fun t => measured t = true) B ->
  totalVolume (calculator config d (A ++ B) 0 0)
  = fold_left
      (fun v t => v + totalVolume (calculator config d [t] 0 0))
      B (totalVolume (calculator config d A 0 0)).
Proof.
  intros HA HB.
  rewrite !totalVolume_listed by (try apply Forall_app; auto).
  unfold reduceVolume at 1. rewrite fold_left_app.
  fold (reduceVolume A). generalize (reduceVolume A) as v.
  induction HB as [|t B Ht _ IH]; intros v; cbn [fold_left];
    [reflexivity|].
  rewrite IH. now rewrite (totalVolume_single config d t Ht).
Qed.

(** C8, as amended.  On the program's double arithmetic, for measured tree
    lists [A] and [B] and a fixed configuration and discount percent: the
    total volume over [A ++ B] is the total volume over [A] with the volume
    of each tree of [B] added to it in order, so that appending a single
    tree adds its volume; the subtotal over [A ++ B] is that volume times
    the price plus the starting fee, charged once; and the breakdown over
    [A ++ B] depends on [A] only through the total volume of [A]. *)
Theorem breakdown_append (config : Spec.PricingConfig float) (d : float)
    (A B : list (TreeItem.t float)) :
  Forall (fun t => measured t = true) A ->
  Forall (fun t => measured t = true) B ->
  let volume l := totalVolume (calculator config d l 0 0) in
  volume (A ++ B) = fold_left (fun v t => v + volume [t]) B (volume A)
  /\ (forall t, measured t = true ->
                volume (A ++ [t]) = volume A + volume [t])
  /\ subtotal (calculator config d (A ++ B) 0 0)
     = fold_left (fun v t => v + volume [t]) B (volume A)
       * Spec.pricePerCubicFoot config + Spec.startingFee config
  /\ (forall A', Forall (fun t => measured t = true) A' ->
                 volume A' = volume A ->
                 breakdown_of (calculator config d (A' ++ B) 0 0)
                 = breakdown_of (calculator config d (A ++ B) 0 0)).
Proof.
  intros HA HB. cbv zeta. split; [|split; [|split]].
  - now apply totalVolume_app.
  - intros t Ht.
    now rewrite (totalVolume_app config d A [t]) by (auto; now constructor).
  - unfold subtotal. now rewrite (totalVolume_app config d A B).
  - intros A' HA' HV.
    apply breakdown_of_congr; [|reflexivity..].
    rewrite !totalVolume_app by assumption. now rewrite HV.
Qed.

Lemma breakdown_append_witness :
  totalVolume (calculator scenario 10 [tree_10_6; tree_5_8] 0 0)
  = totalVolume (calculator scenario 10 [tree_10_6] 0 0)
    + totalVolume (calculator scenario 10 [tree_5_8] 0 0)
  /\ subtotal (calculator scenario 10 [tree_10_6; tree_5_8] 0 0)
     = (totalVolume (calculator scenario 10 [tree_10_6] 0 0)
        + totalVolume (calculator scenario 10 [tree_5_8] 0 0)) * 8 + 20.
Proof.
  assert (H1 : Forall (fun t => measured t = true) [tree_10_6])
    by (repeat constructor).
  assert (H2 : Forall (fun t => measured t = true) [tree_5_8])
    by (repeat constructor).
  split.
  - exact (proj1 (breakdown_append scenario 10 [tree_10_6] [tree_5_8]
                    H1 H2)).
  - exact (proj1 (proj2 (proj2 (breakdown_append scenario 10 [tree_10_6]
                                  [tree_5_8] H1 H2)))).
Defined.

(** Allowing for the second starting fee does not restore additivity on
    doubles: in the scenario, the breakdown over both trees plus the
    breakdown over no tree differs from the sum of the two single-tree
    breakdowns in the last digits of the taxable amount, though both print
    as 494.60. *)
Lemma additivity_up_to_fee_rounds :
  let breakdown l := breakdown_of (calculator scenario 10 l 0 0) in
  let together := Spec.plus (breakdown [tree_10_6; tree_5_8])
                            (breakdown []) in
  let apart := Spec.plus (breakdown [tree_10_6]) (breakdown [tree_5_8]) in
  Spec.subtotal together = Spec.subtotal apart
  /\ Spec.taxableAmount together <> Spec.taxableAmount apart
  /\ toFixed2 (Spec.taxableAmount together) = Some "494.60"
  /\ toFixed2 (Spec.taxableAmount apart) = Some "494.60".
Proof.
  cbv zeta. split; [vm_compute; reflexivity|].
  split; [|split; vm_compute; reflexivity].
  apply Binary64.differ. vm_compute. discriminate.
Qed.

End Append.

(** * Composing and saving a quote *)

Section Composition.
Import CalculatorView.
Local Open Scope float_scope.

(** Every tree [addTree] creates has positive measurements, and
    [removeTree] keeps that: the lists a composition reaches from the
    empty list hold measured trees only. *)
Lemma addTree_measured (uuid : string) (st : State float) :
  Forall (fun t => measured t = true) (trees st) ->
  Forall (fun t => measured t = true) (trees (addTree uuid st)).
Proof.
  intros Hts. unfold addTree.
  destruct (num_truthy (currentVolume st)) eqn:Htruthy; simpl;
    [|assumption].
  apply Forall_app. split; [assumption|].
  constructor; [|constructor].
  unfold measured; simpl. unfold currentVolume in Htruthy. simpl in Htruthy.
  destruct ((0 <? circumference st) && (0 <? height st));
    [reflexivity|discriminate].
Qed.

Lemma removeTree_measured (id : string) (st : State float) :
  Forall (fun t => measured t = true) (trees st) ->
  Forall (fun t => measured t = true) (trees (removeTree id st)).
Proof.
  intros Hts. unfold removeTree; simpl.
  rewrite Forall_forall in *. intros t Ht.
  apply list_elem_of_filter in Ht as [_ Ht]. now apply Hts.
Qed.

Lemma step_measured (a : Action) (st : State float) :
  Forall (fun t => measured t = true) (trees st) ->
  Forall (fun t => measured t = true) (trees (step st a)).
Proof.
  intros Hts. destruct a as [x|x|x|uuid|id|env]; simpl; try assumption.
  - now apply addTree_measured.
  - now apply removeTree_measured.
  - unfold saveQuote.
    destruct (length (Quote.trees (newQuote env st)) =? 0)%nat;
      simpl; [assumption|constructor].
Qed.

(** Whatever the user does after the view mounts, the listed trees are
    measured. *)
Lemma run_measured (actions : list Action) (st : State float) :
  Forall (fun t => measured t = true) (trees st) ->
  Forall (fun t => measured t = true) (trees (run st actions)).
Proof.
  revert st. induction actions as [|a actions IH]; intros st Hts;
    [assumption|].
  simpl. apply IH. now apply step_measured.
Qed.

(** X15. Whatever the user does after the view mounts, every listed tree
    has positive measurements. *)
Lemma mounted_measured (fee price rate : float) (tax disc : bool)
    (dflt : float) (hist : list (Quote.t float)) (actions : list Action) :
  Forall (fun t => measured t = true)
    (trees (run (mount fee price rate tax disc dflt hist) actions)).
Proof. apply run_measured. constructor. Qed.

End Composition.

Section Save.
Context {N : Type} `{Number N}.
Import CalculatorView.

(** The trees recorded in the quote [saveQuote] builds. *)
Lemma newQuote_trees (env : Fresh) (st : State N) :
  Quote.trees (newQuote env st)
  = match trees st with
    | [] => if num_gt (currentVolume st) num_0
            then [pendingTree (uuid2 env) st] else []
    | _ :: _ => trees st
    end.
Proof. unfold newQuote; simpl. now destruct (trees st). Qed.

(** The amounts recorded in the quote are those of the render. *)
Lemma newQuote_amounts (env : Fresh) (st : State N) :
  stored_amounts (newQuote env st) = amounts (breakdown_of st).
Proof. reflexivity. Qed.

(** [saveQuote] either leaves everything as it is or records the quote it
    built. *)
Lemma saveQuote_cases (env : Fresh) (st : State N) :
  (Quote.trees (newQuote env st) = [] /\ saveQuote env st = (st, []))
  \/ (Quote.trees (newQuote env st) <> []
      /\ saveQuote env st
         = (with_form st num_0 num_0 [] (newQuote env st :: history st),
            [SetItem "quoteHistory" (newQuote env st :: history st);
             Alert "Quote saved to history!"])).
Proof.
  unfold saveQuote.
  destruct (Quote.trees (newQuote env st)) as [|t ts]; simpl.
  - now left.
  - right. split; [discriminate|reflexivity].
Qed.

(** C5, as amended.  Saving with an empty tree list and no pending
    measurement of positive volume is rejected: the state, and with it the
    history, is returned unchanged, nothing is written to storage, no
    alert is shown and no quote is recorded. *)
Theorem saveQuote_rejects (env : Fresh) (st : State N) :
  trees st = [] -> num_gt (currentVolume st) num_0 = false ->
  saveQuote env st = (st, []).
Proof.
  intros Hnil Hcv.
  destruct (saveQuote_cases env st) as [[_ Hs]|[Hne _]]; [exact Hs|].
  rewrite newQuote_trees, Hnil, Hcv in Hne. now contradiction Hne.
Qed.

(** Saving with at least one listed tree, or with a pending measurement
    of positive volume, records a quote at the head of the history, clears
    the form and persists the new history. *)
Lemma saveQuote_accepts (env : Fresh) (st : State N) :
  trees st <> [] \/ num_gt (currentVolume st) num_0 = true ->
  saveQuote env st
  = (with_form st num_0 num_0 [] (newQuote env st :: history st),
     [SetItem "quoteHistory" (newQuote env st :: history st);
      Alert "Quote saved to history!"]).
Proof.
  intros Hin.
  destruct (saveQuote_cases env st) as [[Hnil _]|[_ Hs]]; [|exact Hs].
  rewrite newQuote_trees in Hnil.
  destruct Hin as [Hne|Hcv].
  - destruct (trees st); [now contradiction Hne|discriminate].
  - rewrite Hcv in Hnil. destruct (trees st); discriminate.
Qed.

(** No step records a quote without trees: if every quote of the history
    has a tree, so has every quote after any actions. *)
Lemma step_quotes_have_trees (a : Action) (st : State N) :
  Forall (fun q => Quote.trees q <> []) (history st) ->
  Forall (fun q => Quote.trees q <> []) (history (step st a)).
Proof.
  intros Hh. destruct a as [x|x|x|uuid|id|env]; simpl; try assumption.
  - unfold addTree. now destruct (negb _).
  - destruct (saveQuote_cases env st) as [[_ ->]|[Hne ->]]; simpl;
      [assumption|].
    now constructor.
Qed.

(** X16. If every quote of the history has a tree, so has every quote of
    the history after any sequence of actions: no quote without trees is
    ever recorded. *)
Lemma run_quotes_have_trees (actions : list Action) (st : State N) :
  Forall (fun q => Quote.trees q <> []) (history st) ->
  Forall (fun q => Quote.trees q <> []) (history (run st actions)).
Proof.
  revert st. induction actions as [|a actions IH]; intros st Hh;
    [assumption|].
  simpl. apply IH. now apply step_quotes_have_trees.
Qed.

End Save.

Section SaveClaims.
Import CalculatorView.
Local Open Scope float_scope.

Lemma saveQuote_rejects_witness :
  saveQuote stamps (calculator defaults 0 [] (-3) 6)
  = (calculator defaults 0 [] (-3) 6, []).
Proof.
  apply (saveQuote_rejects stamps (calculator defaults 0 [] (-3) 6));
    reflexivity.
Defined.

(** C5, counterexample.  With an empty tree list and pending measurements
    10 and 6, saving is not rejected: the state changes, a write to storage
    and an alert are issued, and the history, empty before, holds a quote
    for the pending tree afterwards. *)
Lemma save_empty_list_counterexample :
  let st := calculator defaults 0 [] 10 6 in
  trees st = []
  /\ saveQuote stamps st <> (st, [])
  /\ saved stamps st <> history st
  /\ exists q, saved stamps st = q :: history st
               /\ Quote.trees q = [TreeItem.mk "t" 10 6 ""]
               /\ snd (saveQuote stamps st)
                  = [SetItem "quoteHistory" (q :: history st);
                     Alert "Quote saved to history!"].
Proof.
  cbv zeta. split; [reflexivity|]. split; [|split].
  - intros Heq. apply (f_equal snd) in Heq. discriminate.
  - intros Heq. apply (f_equal length) in Heq. discriminate.
  - eexists. split; [reflexivity|]. split; reflexivity.
Qed.

(** C10, as amended.  When the tree list is empty and the pending
    measurements are both positive with a volume [c * c * h / 12.56] that
    is positive as a double, saving records a quote whose trees are exactly
    the one item built from the pending measurements, at the head of the
    history. *)
Theorem saveQuote_pending (env : Fresh) (st : State float) :
  trees st = [] ->
  (0 <? circumference st) = true -> (0 <? height st) = true ->
  (0 <? circumference st * circumference st * height st / 12.56) = true ->
  exists q,
    saveQuote env st
    = (with_form st 0 0 [] (q :: history st),
       [SetItem "quoteHistory" (q :: history st);
        Alert "Quote saved to history!"])
    /\ Quote.trees q
       = [TreeItem.mk (uuid2 env) (circumference st) (height st) ""]
    /\ stored_amounts q = amounts (breakdown_of st).
Proof.
  intros Hnil Hc Hh Hv.
  assert (Hcv : (0 <? currentVolume st) = true).
  { now rewrite currentVolume_measured. }
  exists (newQuote env st). split; [|split].
  - rewrite (saveQuote_accepts env st) by now right. reflexivity.
  - rewrite newQuote_trees, Hnil. simpl. now rewrite Hcv.
  - reflexivity.
Qed.

Lemma saveQuote_pending_witness :
  exists q,
    saveQuote stamps (calculator defaults 0 [] 10 6)
    = (with_form (calculator defaults 0 [] 10 6) 0 0 [] [q],
       [SetItem "quoteHistory" [q]; Alert "Quote saved to history!"])
    /\ Quote.trees q = [TreeItem.mk "t" 10 6 ""]
    /\ stored_amounts q
       = amounts (breakdown_of (calculator defaults 0 [] 10 6)).
Proof.
  apply (saveQuote_pending stamps (calculator defaults 0 [] 10 6));
    reflexivity.
Defined.

(** C10, counterexample.  With an empty tree list and the positive pending
    measurements 1e-200 and 1, the square of the circumference underflows
    to [0], the volume is [0], and saving is rejected. *)
Lemma save_pending_counterexample :
  let st := calculator defaults 0 [] 1e-200 1 in
  trees st = []
  /\ (0 <? circumference st) = true /\ (0 <? height st) = true
  /\ currentVolume st = 0
  /\ saveQuote stamps st = (st, []).
Proof. vm_compute. repeat split; reflexivity. Qed.

(** The amounts a recorded quote stores are the specification's breakdown
    over the quote's own trees when the composition had no tree listed, or
    no pending volume. *)
Lemma saved_amounts_of_trees (env : Fresh) (st : State float) :
  Forall (fun t => measured t = true) (trees st) ->
  trees st = [] \/ currentVolume st = 0 ->
  Quote.trees (newQuote env st) <> [] ->
  stored_amounts (newQuote env st)
  = amounts (Spec.computeBreakdown (Quote.trees (newQuote env st))
               (config_of st) (discountPercent st)).
Proof.
  intros Hts Hcase Hne.
  rewrite newQuote_amounts. f_equal.
  rewrite newQuote_trees in *.
  destruct (trees st) as [|t ts] eqn:Htrees.
  - simpl in *. destruct (0 <? currentVolume st) eqn:Hcv;
      [|now contradiction Hne].
    rewrite (breakdown_pending_positive st (uuid2 env))
      by (rewrite ?Htrees; assumption).
    now rewrite Htrees.
  - destruct Hcase as [Habs|Hz]; [discriminate|].
    rewrite (breakdown_pending_zero st) by (rewrite ?Htrees; assumption).
    now rewrite Htrees.
Qed.

(** Otherwise, with trees listed and a pending measurement of positive
    volume, the quote records the listed trees only, while its amounts are
    the breakdown over the listed trees followed by the pending one. *)
Lemma saved_amounts_price_pending (env : Fresh) (st : State float) :
  Forall (fun t => measured t = true) (trees st) ->
  trees st <> [] -> (0 <? currentVolume st) = true ->
  Quote.trees (newQuote env st) = trees st
  /\ stored_amounts (newQuote env st)
     = amounts (Spec.computeBreakdown
                  (trees st ++ [pendingTree (uuid2 env) st])
                  (config_of st) (discountPercent st)).
Proof.
  intros Hts Hne Hcv. split.
  - rewrite newQuote_trees. destruct (trees st); [now contradiction Hne|].
    reflexivity.
  - rewrite newQuote_amounts. f_equal.
    now apply breakdown_pending_positive.
Qed.

(** C1, the failing input.  With the tree (10, 6) listed and the
    measurements 5 and 8 pending, saving records a quote whose trees are
    the listed tree alone, while its amounts price both trees: they are
    not the breakdown of the quote's own trees (a total of 636.94 against
    477.71). *)
Theorem saved_amounts_mismatch :
  let st := calculator defaults 0 [tree_10_6] 5 8 in
  exists q,
    saved stamps st = [q]
    /\ Quote.trees q = [tree_10_6]
    /\ stored_amounts q
       <> amounts (Spec.computeBreakdown (Quote.trees q) (config_of st)
                     (discountPercent st))
    /\ toFixed2 (Quote.total q) = Some "636.94"
    /\ toFixed2 (Spec.total
                   (Spec.computeBreakdown (Quote.trees q) (config_of st)
                      (discountPercent st))) = Some "477.71".
Proof.
  cbv zeta. eexists. split; [vm_compute; reflexivity|].
  split; [reflexivity|]. split; [|split; vm_compute; reflexivity].
  intros Heq. apply (f_equal (fun a => fst (fst (fst a)))) in Heq.
  revert Heq. apply Binary64.differ. vm_compute. discriminate.
Qed.

End SaveClaims.

(** * Deleting a quote *)

Section Delete.
Context {N : Type}.
Import HistoryView.

Lemma filter_keeps_all (id : string) (l : list (Quote.t N)) :
  (forall x, x ∈ l -> Quote.id x <> id) ->
  filter (fun h => Quote.id h <> id) l = l.
Proof.
  induction l as [|x l IH]; intros Hall; [reflexivity|].
  rewrite filter_cons_True by (apply Hall; left).
  f_equal. apply IH. intros y Hy. apply Hall. now right.
Qed.

(** A declined confirmation leaves the history alone and writes nothing. *)
Lemma deleteQuote_declined (id : string) (history : list (Quote.t N)) :
  deleteQuote false id history = (history, []).
Proof. reflexivity. Qed.

(** The new history is persisted as one value. *)
Lemma deleteQuote_persists (id : string) (history : list (Quote.t N)) :
  snd (deleteQuote true id history)
  = [SetItem "quoteHistory" (fst (deleteQuote true id history))].
Proof. reflexivity. Qed.

(** C6. A confirmed [deleteQuote id] removes the quote with that id and
    leaves the other quotes as they are and in their order, in the history
    the view holds and in the history it writes to storage; when no quote
    has the id, both are the history as it was; when the only quote has the
    id, both are empty.  In general what remains, and what is persisted, is
    the sub-sequence of the quotes with another id.  A declined
    confirmation changes and writes nothing. *)
Theorem deleteQuote_removes (id : string) (history : list (Quote.t N)) :
  (forall before q after,
      history = before ++ q :: after -> Quote.id q = id ->
      (forall x, x ∈ before ++ after -> Quote.id x <> id) ->
      deleteQuote true id history
      = (before ++ after, [SetItem "quoteHistory" (before ++ after)]))
  /\ ((forall x, x ∈ history -> Quote.id x <> id) ->
      deleteQuote true id history
      = (history, [SetItem "quoteHistory" history]))
  /\ (forall q, history = [q] -> Quote.id q = id ->
      deleteQuote true id history = ([], [SetItem "quoteHistory" []]))
  /\ fst (deleteQuote true id history) `sublist_of` history
  /\ (forall x, x ∈ fst (deleteQuote true id history)
                <-> x ∈ history /\ Quote.id x <> id)
  /\ snd (deleteQuote true id history)
     = [SetItem "quoteHistory" (fst (deleteQuote true id history))]
  /\ deleteQuote false id history = (history, []).
Proof.
  unfold deleteQuote; cbn [fst snd].
  split; [|split; [|split; [|split; [|split; [|split]]]]].
  - intros before q after -> Hq Hrest.
    rewrite filter_app, filter_cons_False by (intros Hn; now apply Hn).
    rewrite <- filter_app. now rewrite filter_keeps_all.
  - intros Hall. now rewrite filter_keeps_all.
  - intros q -> Hq.
    now rewrite filter_cons_False by (intros Hn; now apply Hn).
  - apply sublist_filter.
  - intros x. rewrite list_elem_of_filter. tauto.
  - reflexivity.
  - reflexivity.
Qed.

End Delete.

Lemma deleteQuote_removes_witness :
  let qa := Quote.mk "a" "" 1%float 0%float 0%float 1%float [tree_10_6] None in
  let qb := Quote.mk "b" "" 2%float 0%float 0%float 2%float [tree_5_8] None in
  let qc := Quote.mk "c" "" 3%float 0%float 0%float 3%float [tree_5_8] None in
  HistoryView.deleteQuote true "b" [qa; qb; qc]
  = ([qa; qc], [SetItem "quoteHistory" [qa; qc]])
  /\ HistoryView.deleteQuote true "z" [qa; qb; qc]
     = ([qa; qb; qc], [SetItem "quoteHistory" [qa; qb; qc]])
  /\ HistoryView.deleteQuote true "b" [qb]
     = ([], [SetItem "quoteHistory" []]).
Proof.
  intros qa qb qc. split; [|split].
  - apply (proj1 (deleteQuote_removes "b" [qa; qb; qc]) [qa] qb [qc]);
      [reflexivity|reflexivity|].
    intros x Hx. apply list_elem_of_In in Hx.
    destruct Hx as [<-|[<-|[]]]; discriminate.
  - apply (proj1 (proj2 (deleteQuote_removes "z" [qa; qb; qc]))).
    intros x Hx. apply list_elem_of_In in Hx.
    destruct Hx as [<-|[<-|[<-|[]]]]; discriminate.
  - apply (proj1 (proj2 (proj2 (deleteQuote_removes "b" [qb]))) qb);
      reflexivity.
Defined.

(** * Loading and saving settings *)

Section Storage.
Import useLocalStorage.
Variable JSON_parse : string -> option JSValue.
Variable JSON_stringify : JSValue -> string.

Lemma initial_unreadable (window : option Storage) (key : string)
    (initialValue : JSValue) :
  unreadable JSON_parse window key ->
  initial JSON_parse window key initialValue = initialValue.
Proof.
  unfold unreadable, initial.
  destruct window as [localStorage|]; [|reflexivity].
  destruct (localStorage !! key) as [item|]; [|reflexivity].
  intros [-> | ->]; [reflexivity|].
  now destruct (decide (item = "")).
Qed.

(** A text [JSON.parse] reads is returned as read, whatever its type. *)
Lemma initial_parsed (localStorage : Storage) (key item : string)
    (v initialValue : JSValue) :
  localStorage !! key = Some item -> item <> "" ->
  JSON_parse item = Some v ->
  initial JSON_parse (Some localStorage) key initialValue = v.
Proof.
  intros Hk Hne Hp. unfold initial. rewrite Hk, Hp.
  now destruct (decide (item = "")).
Qed.

(** What [setValue] wrote is what a later mount reads, provided the
    platform reads back what it printed. *)
Lemma initial_after_setValue (localStorage : Storage) (key : string)
    (old v initialValue : JSValue) :
  JSON_stringify v <> "" ->
  JSON_parse (JSON_stringify v) = Some v ->
  initial JSON_parse
    (snd (setValue JSON_stringify (Some localStorage) key old (Value v)))
    key initialValue = v.
Proof.
  intros Hne Hp. simpl.
  apply (initial_parsed _ key (JSON_stringify v)); [|assumption..].
  apply lookup_insert_eq.
Qed.

(** C7, as amended.  A settings slot that is absent, empty or unparsable
    is read as its default, so that a store in which all six are so yields
    the documented defaults; a slot whose text parses is read as the
    parsed value, of whatever type; and a value written by the setter is
    read back by a later mount on a platform that reads back what it
    printed. *)
Theorem settings_load (window : option Storage) :
  (forall key initialValue,
      unreadable JSON_parse window key ->
      initial JSON_parse window key initialValue = initialValue)
  /\ ((forall key, key ∈ settings_keys ->
                   unreadable JSON_parse window key) ->
      settings JSON_parse window = default_settings)
  /\ (forall localStorage key item v initialValue,
         window = Some localStorage ->
         localStorage !! key = Some item -> item <> "" ->
         JSON_parse item = Some v ->
         initial JSON_parse window key initialValue = v)
  /\ (forall localStorage key old v initialValue,
         window = Some localStorage ->
         JSON_stringify v <> "" ->
         JSON_parse (JSON_stringify v) = Some v ->
         initial JSON_parse
           (snd (setValue JSON_stringify window key old (Value v)))
           key initialValue = v).
Proof.
  split; [|split; [|split]].
  - intros key d. apply initial_unreadable.
  - intros Hall. unfold settings, default_settings, settings_keys in *.
    rewrite !initial_unreadable; [reflexivity|..];
      apply Hall; set_solver.
  - intros ls key item v d ->. apply initial_parsed.
  - intros ls key old v d ->. apply initial_after_setValue.
Qed.

End Storage.

Section StorageExamples.
Import useLocalStorage.

Lemma settings_load_witness :
  settings keyword_parse (Some {["taxRate" := "12,5"]}) = default_settings
  /\ initial keyword_parse (Some {["showDiscount" := "true"]})
       "showDiscount" (JBool false) = JBool true
  /\ initial keyword_parse
       (snd (setValue keyword_stringify (Some ∅) "showTaxCalculator"
               (JBool false) (Value (JBool true))))
       "showTaxCalculator" (JBool false) = JBool true.
Proof.
  split; [|split].
  - apply (proj1 (proj2 (settings_load keyword_parse keyword_stringify
                           (Some {["taxRate" := "12,5"]})))).
    intros key Hkey. unfold unreadable.
    destruct (decide (key = "taxRate")) as [->|Hne].
    + rewrite lookup_singleton_eq. now right.
    + now rewrite lookup_singleton_ne.
  - apply (proj1 (proj2 (proj2 (settings_load keyword_parse
                                  keyword_stringify
                                  (Some {["showDiscount" := "true"]}))))
             {["showDiscount" := "true"]} "showDiscount" "true");
      [reflexivity|apply lookup_singleton_eq|discriminate|reflexivity].
  - apply (proj2 (proj2 (proj2 (settings_load keyword_parse
                                  keyword_stringify (Some ∅))))
             ∅ "showTaxCalculator");
      [reflexivity|discriminate|reflexivity].
Defined.

(** C7, counterexample.  With the text [true] stored under [startingFee],
    a text that JSON reads as the boolean [true], the hook returns that
    boolean and not the default [0]: a value of the wrong type is not
    replaced. *)
Lemma wrong_type_counterexample :
  let window := Some ({["startingFee" := "true"]} : Storage) in
  keyword_parse "true" = Some (JBool true)
  /\ initial keyword_parse window "startingFee" (JNumber 0) = JBool true
  /\ typeof (JBool true) <> typeof (JNumber 0)
  /\ settings keyword_parse window <> default_settings.
Proof.
  cbv zeta. split; [reflexivity|].
  assert (Hi : initial keyword_parse
                 (Some ({["startingFee" := "true"]} : Storage))
                 "startingFee" (JNumber 0) = JBool true).
  { apply (initial_parsed _ _ "startingFee" "true");
      [apply lookup_singleton_eq|discriminate|reflexivity]. }
  split; [exact Hi|]. split; [discriminate|].
  intros Heq. apply (f_equal startingFee) in Heq.
  unfold settings, default_settings in Heq. cbn [startingFee] in Heq.
  rewrite Hi in Heq. discriminate.
Qed.

(** The same holds for any reader that reads [true] as JSON does. *)
Lemma wrong_type_not_replaced (JSON_parse : string -> option JSValue) :
  JSON_parse "true" = Some (JBool true) ->
  initial JSON_parse (Some {["startingFee" := "true"]}) "startingFee"
    (JNumber 0) = JBool true.
Proof.
  intros Hp. apply (initial_parsed _ _ "startingFee" "true");
    [apply lookup_singleton_eq|discriminate|exact Hp].
Qed.

End StorageExamples.

(** * Further properties of the calculator *)

Section CalculatorExtras.
Import CalculatorView.
Local Open Scope float_scope.

Lemma truthy_volume_measured (st : State float) :
  num_truthy (currentVolume st) = true ->
  (0 <? circumference st) = true /\ (0 <? height st) = true.
Proof.
  unfold currentVolume; simpl.
  destruct (0 <? circumference st); [|discriminate].
  destruct (0 <? height st); [|discriminate].
  now split.
Qed.

(** X1. [addTree] creates no item from a measurement that is zero,
    negative or not a number: the state is left as it is. *)
Theorem addTree_rejects (uuid : string) (st : State float) :
  (circumference st <=? 0) = true \/ (height st <=? 0) = true
  \/ circumference st = nan \/ height st = nan ->
  addTree uuid st = st.
Proof.
  intros Hbad. unfold addTree.
  assert (Hz : currentVolume st = 0).
  { destruct Hbad as [Hc|[Hh|Hn]].
    - apply currentVolume_unmeasured. now left.
    - apply currentVolume_unmeasured. now right.
    - now apply currentVolume_nan. }
  now rewrite Hz.
Qed.

Lemma addTree_rejects_witness :
  addTree "t" (calculator defaults 0 [tree_10_6] (-3) 6)
  = calculator defaults 0 [tree_10_6] (-3) 6.
Proof.
  apply (addTree_rejects "t" (calculator defaults 0 [tree_10_6] (-3) 6)).
  left. reflexivity.
Defined.

Lemma reduceVolume_snoc {N : Type} `{Number N} (l : list (TreeItem.t N))
    (t : TreeItem.t N) :
  reduceVolume (l ++ [t])
  = num_add (reduceVolume l)
      (num_div (num_mul (num_mul (TreeItem.circumference t)
                                 (TreeItem.circumference t))
                        (TreeItem.height t)) num_12_56).
Proof. unfold reduceVolume. now rewrite fold_left_app. Qed.

Lemma addTree_same_breakdown (uuid : string) (st : State float) :
  Forall (fun t => measured t = true) (trees st) ->
  breakdown_of (addTree uuid st) = breakdown_of st.
Proof.
  intros Hts. unfold addTree.
  destruct (num_truthy (currentVolume st)) eqn:Htruthy; [|reflexivity].
  simpl. apply breakdown_of_congr; [|reflexivity..].
  destruct (truthy_volume_measured st Htruthy) as [Hc Hh].
  unfold totalVolume. simpl trees. rewrite reduceVolume_snoc. simpl.
  rewrite (currentVolume_measured st Hc Hh).
  change (currentVolume (with_form st 0 0 _ _)) with 0.
  apply Binary64.add_zero_r. rewrite add_spec.
  apply Binary64.add_sign_clear.
  - now apply reduceVolume_sign_clear.
  - now apply volume_sign_clear.
Qed.

(** X2. Moving the pending measurement into the list with [addTree] changes
    no amount of the breakdown: the subtotal, discount, taxable amount, tax
    and total shown before are those shown after. *)
Theorem addTree_keeps_breakdown (uuid : string) (st : State float) :
  Forall (fun t => measured t = true) (trees st) ->
  breakdown_of (addTree uuid st) = breakdown_of st.
Proof. apply addTree_same_breakdown. Qed.

Lemma addTree_keeps_breakdown_witness :
  breakdown_of (addTree "b" (calculator scenario 10 [tree_10_6] 5 8))
  = breakdown_of (calculator scenario 10 [tree_10_6] 5 8).
Proof.
  apply (addTree_keeps_breakdown "b"
           (calculator scenario 10 [tree_10_6] 5 8)).
  repeat constructor.
Defined.

(** X3. Adding the pending tree and then saving records a quote whose trees
    are the listed trees followed by the pending one, with the amounts that
    were on display before the tree was added. *)
Theorem add_then_save (uuid : string) (env : Fresh) (st : State float) :
  Forall (fun t => measured t = true) (trees st) ->
  num_truthy (currentVolume st) = true ->
  exists q,
    saved env (addTree uuid st) = q :: history st
    /\ Quote.trees q
       = trees st ++ [TreeItem.mk uuid (circumference st) (height st) ""]
    /\ stored_amounts q = amounts (breakdown_of st).
Proof.
  intros Hts Htruthy.
  exists (newQuote env (addTree uuid st)). split; [|split].
  - unfold saved. rewrite saveQuote_accepts.
    + simpl. unfold addTree. now rewrite Htruthy.
    + left. unfold addTree. rewrite Htruthy. simpl.
      now destruct (trees st).
  - rewrite newQuote_trees. unfold addTree. rewrite Htruthy. simpl.
    now destruct (trees st).
  - rewrite newQuote_amounts. f_equal.
    now apply addTree_same_breakdown.
Qed.

Lemma add_then_save_witness :
  exists q,
    saved stamps (addTree "b" (calculator defaults 0 [tree_10_6] 5 8))
    = [q]
    /\ Quote.trees q = [tree_10_6; tree_5_8]
    /\ stored_amounts q
       = amounts (breakdown_of (calculator defaults 0 [tree_10_6] 5 8)).
Proof.
  apply (add_then_save "b" stamps (calculator defaults 0 [tree_10_6] 5 8)).
  - repeat constructor.
  - reflexivity.
Defined.

(** X4. With tax and discount both off, the total is the subtotal (as
    numbers compare), whenever the subtotal is a number. *)
Theorem toggles_off_total (st : State float) :
  showTax st = false -> showDiscount st = false ->
  is_nan (subtotal st) = false ->
  (total st =? subtotal st) = true.
Proof.
  intros Ht Hd Hn.
  unfold total, taxAmount, taxableAmount, discountAmount.
  rewrite Ht, Hd. now apply Binary64.sub_add_zero.
Qed.

Lemma toggles_off_total_witness :
  (total (calculator defaults 0 [tree_10_6] 5 8)
   =? subtotal (calculator defaults 0 [tree_10_6] 5 8)) = true.
Proof.
  apply (toggles_off_total (calculator defaults 0 [tree_10_6] 5 8));
    reflexivity.
Defined.

(** X5. Saving twice in a row records at most one quote: the second call
    finds the form cleared, or the same rejected composition, and changes
    nothing. *)
Theorem saveQuote_twice (env1 env2 : Fresh) (st : State float) :
  saveQuote env2 (fst (saveQuote env1 st)) = (fst (saveQuote env1 st), []).
Proof.
  destruct (saveQuote_cases env1 st) as [[Hnil ->]|[_ ->]]; simpl.
  - destruct (saveQuote_cases env2 st) as [[_ Hs]|[Hne _]]; [exact Hs|].
    rewrite newQuote_trees in *.
    destruct (trees st); [|discriminate].
    now destruct (num_gt (currentVolume st) num_0).
  - reflexivity.
Qed.

(** X24. An accepted save hands back an empty composition: no tree is
    listed, nothing is pending, and with a finite price the subtotal on
    display is the starting fee again. *)
Theorem saveQuote_resets (env : Fresh) (st : State float) :
  trees st <> [] \/ (0 <? currentVolume st) = true ->
  is_finite (pricePerCubicFoot st) = true ->
  (0 <=? startingFee st) = true ->
  let st' := fst (saveQuote env st) in
  trees st' = [] /\ currentVolume st' = 0
  /\ (subtotal st' =? startingFee st') = true.
Proof.
  intros Hin Hp Hfee. cbv zeta.
  rewrite (saveQuote_accepts env st) by exact Hin. cbn [fst].
  split; [reflexivity|]. split; [reflexivity|].
  now apply empty_subtotal.
Qed.

Lemma saveQuote_resets_witness :
  trees (fst (saveQuote stamps (calculator scenario 10 [tree_10_6] 5 8)))
  = []
  /\ currentVolume
       (fst (saveQuote stamps (calculator scenario 10 [tree_10_6] 5 8))) = 0
  /\ (subtotal
        (fst (saveQuote stamps (calculator scenario 10 [tree_10_6] 5 8)))
      =? 20) = true.
Proof.
  apply (saveQuote_resets stamps (calculator scenario 10 [tree_10_6] 5 8));
    [left; discriminate|reflexivity|reflexivity].
Defined.

End CalculatorExtras.

(** * Invariants of a composition *)

Section CompositionExtras.
Context {N : Type} `{Number N}.
Import CalculatorView.

Lemma filter_trees_all (id : string) (l : list (TreeItem.t N)) :
  (forall t, t ∈ l -> TreeItem.id t <> id) ->
  filter (fun t => TreeItem.id t <> id) l = l.
Proof.
  induction l as [|x l IH]; intros Hall; [reflexivity|].
  rewrite filter_cons_True by (apply Hall; left).
  f_equal. apply IH. intros y Hy. apply Hall. now right.
Qed.

(** X6. Removing a tree whose id is not in the list leaves the whole state
    as it is. *)
Theorem removeTree_absent (id : string) (st : State N) :
  (forall t, t ∈ trees st -> TreeItem.id t <> id) ->
  removeTree id st = st.
Proof.
  intros Hall. unfold removeTree. rewrite filter_trees_all by assumption.
  now destruct st.
Qed.

(** X25. [removeTree] takes out the tree with the given id and keeps the
    other trees as they are and in their order; the inputs, the history
    and the settings are not touched. *)
Theorem removeTree_removes (id : string) (st : State N)
    (before after : list (TreeItem.t N)) (t : TreeItem.t N) :
  trees st = before ++ t :: after -> TreeItem.id t = id ->
  (forall x, x ∈ before ++ after -> TreeItem.id x <> id) ->
  removeTree id st
  = with_form st (circumference st) (height st) (before ++ after)
      (history st).
Proof.
  intros Hts Hid Hrest. unfold removeTree. f_equal.
  rewrite Hts, filter_app, filter_cons_False by (intros Hn; now apply Hn).
  rewrite <- filter_app. now apply filter_trees_all.
Qed.

(** X7. Removing the tree that [addTree] has just created, under an id no
    listed tree has, gives back the list of trees as it was (the two inputs
    stay cleared). *)
Theorem removeTree_addTree (uuid : string) (st : State N) :
  (forall t, t ∈ trees st -> TreeItem.id t <> uuid) ->
  trees (removeTree uuid (addTree uuid st)) = trees st.
Proof.
  intros Hfresh. unfold addTree.
  destruct (negb (num_truthy (currentVolume st))); simpl.
  - now apply filter_trees_all.
  - rewrite filter_app, filter_trees_all by assumption.
    rewrite filter_cons_False by (intros Hn; now apply Hn).
    apply app_nil_r.
Qed.

Lemma step_history_suffix (a : Action) (st : State N) :
  history st `suffix_of` history (step st a).
Proof.
  destruct a as [x|x|x|uuid|id|env]; simpl; try reflexivity.
  - unfold addTree. now destruct (negb _).
  - destruct (saveQuote_cases env st) as [[_ ->]|[_ ->]]; simpl;
      [reflexivity|].
    now apply suffix_cons_r.
Qed.

(** X8. No action of the calculator removes, alters or reorders a saved
    quote: the history a composition started from is a suffix of the
    history after any sequence of actions. *)
Theorem run_history_suffix (actions : list Action) (st : State N) :
  history st `suffix_of` history (run st actions).
Proof.
  revert st. induction actions as [|a actions IH]; intros st;
    [reflexivity|].
  simpl. etransitivity; [apply step_history_suffix|apply IH].
Qed.

Lemma step_config (a : Action) (st : State N) :
  config_of (step st a) = config_of st.
Proof.
  destruct a as [x|x|x|uuid|id|env]; simpl; try reflexivity.
  - unfold addTree. now destruct (negb _).
  - now destruct (saveQuote_cases env st) as [[_ ->]|[_ ->]].
Qed.

(** X9. No action of the calculator changes a setting: the starting fee,
    price, tax rate, default discount and the two toggles after any
    sequence of actions are those the view mounted with. *)
Theorem run_config (actions : list Action) (st : State N) :
  config_of (run st actions) = config_of st.
Proof.
  revert st. induction actions as [|a actions IH]; intros st;
    [reflexivity|].
  simpl. rewrite IH. apply step_config.
Qed.

(** X10. Saving keeps the ids of the history distinct, provided the id
    drawn for the new quote is not one of them. *)
Theorem saveQuote_ids_distinct (env : Fresh) (st : State N) :
  NoDup (Quote.id <$> history st) ->
  uuid1 env ∉ Quote.id <$> history st ->
  NoDup (Quote.id <$> saved env st).
Proof.
  intros Hnd Hfresh. unfold saved.
  destruct (saveQuote_cases env st) as [[_ ->]|[_ ->]]; simpl;
    [assumption|].
  now constructor.
Qed.

(** X11. Deleting, in the history view, the id drawn by a save gives back
    the history as it was before the save, provided no older quote has that
    id. *)
Theorem save_then_delete (env : Fresh) (st : State N) :
  uuid1 env ∉ Quote.id <$> history st ->
  fst (HistoryView.deleteQuote true (uuid1 env) (saved env st))
  = history st.
Proof.
  intros Hfresh. unfold saved, HistoryView.deleteQuote; cbn [fst].
  assert (Hold : filter (fun h => Quote.id h <> uuid1 env) (history st)
                 = history st).
  { apply filter_keeps_all. intros x Hx Heq. apply Hfresh.
    rewrite <- Heq. now apply list_elem_of_fmap_2. }
  destruct (saveQuote_cases env st) as [[_ ->]|[_ ->]]; cbn [fst history];
    [exact Hold|].
  simpl history.
  rewrite filter_cons_False by (intros Hn; now apply Hn).
  exact Hold.
Qed.

End CompositionExtras.

Section DeleteExtras.
Context {N : Type}.
Import HistoryView.

(** X12. Deleting the same id a second time changes nothing more. *)
Theorem deleteQuote_idempotent (id : string) (history : list (Quote.t N)) :
  fst (deleteQuote true id (fst (deleteQuote true id history)))
  = fst (deleteQuote true id history).
Proof.
  simpl. apply filter_keeps_all.
  intros x Hx. now apply list_elem_of_filter in Hx as [Hx _].
Qed.

(** X13. Two deletions give the same history in either order. *)
Theorem deleteQuote_comm (id1 id2 : string) (history : list (Quote.t N)) :
  fst (deleteQuote true id1 (fst (deleteQuote true id2 history)))
  = fst (deleteQuote true id2 (fst (deleteQuote true id1 history))).
Proof.
  simpl. rewrite !list_filter_filter.
  apply list_filter_iff. intros x. tauto.
Qed.

(** X14. A deletion never lengthens the history, and in a history of
    distinct ids that holds the id it shortens it by exactly one quote. *)
Theorem deleteQuote_length (confirmed : bool) (id : string)
    (history : list (Quote.t N)) :
  length (fst (deleteQuote confirmed id history)) <= length history
  /\ (confirmed = true -> NoDup (Quote.id <$> history) ->
      id ∈ Quote.id <$> history ->
      S (length (fst (deleteQuote confirmed id history))) = length history).
Proof.
  split.
  - destruct confirmed; simpl; [apply length_filter|reflexivity].
  - intros -> Hnd Hin. simpl.
    apply list_elem_of_fmap in Hin as (q & Hid & Hq).
    apply list_elem_of_split in Hq as (l1 & l2 & ->).
    rewrite fmap_app, fmap_cons in Hnd.
    apply NoDup_app in Hnd as (_ & Hdisj & Hnd2).
    apply NoDup_cons in Hnd2 as [Hq2 _].
    assert (H1 : filter (fun h => Quote.id h <> id) l1 = l1).
    { apply filter_keeps_all. intros x Hx Heq.
      apply (Hdisj (Quote.id x)); [now apply list_elem_of_fmap_2|].
      rewrite Heq, <- Hid. left. }
    assert (H2 : filter (fun h => Quote.id h <> id) l2 = l2).
    { apply filter_keeps_all. intros x Hx Heq. apply Hq2.
      rewrite <- Hid, <- Heq. now apply list_elem_of_fmap_2. }
    rewrite filter_app, filter_cons_False, H1, H2
      by (intros Hn; now apply Hn).
    rewrite !length_app. simpl. lia.
Qed.

End DeleteExtras.

Section CompositionExamples.
Import CalculatorView.
Local Open Scope float_scope.

Ltac not_listed :=
  let H := fresh in
  intros H; apply list_elem_of_In in H; simpl in H; intuition discriminate.

Lemma removeTree_absent_witness :
  removeTree "z" (calculator defaults 0 [tree_10_6; tree_5_8] 0 0)
  = calculator defaults 0 [tree_10_6; tree_5_8] 0 0.
Proof.
  apply (removeTree_absent "z"
           (calculator defaults 0 [tree_10_6; tree_5_8] 0 0)).
  intros t Ht. apply list_elem_of_In in Ht.
  destruct Ht as [<-|[<-|[]]]; discriminate.
Defined.

Lemma removeTree_removes_witness :
  removeTree "a" (calculator defaults 0 [tree_10_6; tree_5_8] 1 2)
  = calculator defaults 0 [tree_5_8] 1 2.
Proof.
  apply (removeTree_removes "a"
           (calculator defaults 0 [tree_10_6; tree_5_8] 1 2)
           [] [tree_5_8] tree_10_6); [reflexivity|reflexivity|].
  intros x Hx. apply list_elem_of_In in Hx.
  destruct Hx as [<-|[]]; discriminate.
Defined.

Lemma removeTree_addTree_witness :
  trees (removeTree "c" (addTree "c" (calculator defaults 0 [tree_10_6] 5 8)))
  = [tree_10_6].
Proof.
  apply (removeTree_addTree "c" (calculator defaults 0 [tree_10_6] 5 8)).
  intros t Ht. apply list_elem_of_In in Ht.
  destruct Ht as [<-|[]]; discriminate.
Defined.

Lemma saveQuote_ids_distinct_witness :
  NoDup (Quote.id <$> saved stamps with_history).
Proof.
  apply (saveQuote_ids_distinct stamps with_history).
  - repeat constructor; not_listed.
  - not_listed.
Defined.

Lemma save_then_delete_witness :
  fst (HistoryView.deleteQuote true "q" (saved stamps with_history))
  = [quote_a; quote_b].
Proof.
  apply (save_then_delete stamps with_history). not_listed.
Defined.

Lemma deleteQuote_length_witness :
  S (length (fst (HistoryView.deleteQuote true "a" [quote_a; quote_b])))
  = 2%nat.
Proof.
  apply (proj2 (deleteQuote_length true "a" [quote_a; quote_b]));
    [reflexivity| |left].
  repeat constructor; not_listed.
Defined.

Lemma run_quotes_have_trees_witness :
  Forall (fun q => Quote.trees q <> [])
    (history (run with_history [AddTree "c"; SaveQuote stamps])).
Proof.
  apply (run_quotes_have_trees [AddTree "c"; SaveQuote stamps] with_history).
  repeat constructor; discriminate.
Defined.

End CompositionExamples.

(** * Further properties of the storage hook, the settings and the app *)

Section HookExtras.
Import useLocalStorage.
Variable JSON_parse : string -> option JSValue.
Variable JSON_stringify : JSValue -> string.

Lemma initial_other_key (window : option Storage) (key key' : string)
    (old initialValue : JSValue) (value : Update) :
  key <> key' ->
  initial JSON_parse (snd (setValue JSON_stringify window key old value))
    key' initialValue
  = initial JSON_parse window key' initialValue.
Proof.
  intros Hne. destruct window as [localStorage|]; [|reflexivity].
  unfold initial, setValue; cbn [snd].
  now rewrite lookup_insert_ne.
Qed.

(** X17. Writing one slot leaves what the hook reads from every other slot
    as it was. *)
Theorem setValue_other_key (window : option Storage) (key key' : string)
    (old initialValue : JSValue) (value : Update) :
  key <> key' ->
  initial JSON_parse (snd (setValue JSON_stringify window key old value))
    key' initialValue
  = initial JSON_parse window key' initialValue.
Proof. apply initial_other_key. Qed.

(** X18. Of two writes to the same slot the last one wins: the storage is
    the one the second write alone would have left. *)
Theorem setValue_last_write (window : option Storage) (key : string)
    (old1 old2 v2 : JSValue) (value1 : Update) :
  snd (setValue JSON_stringify
         (snd (setValue JSON_stringify window key old1 value1))
         key old2 (Value v2))
  = snd (setValue JSON_stringify window key old1 (Value v2)).
Proof.
  destruct window as [localStorage|]; [|reflexivity].
  unfold setValue; cbn [snd]. now rewrite insert_insert_eq.
Qed.

Ltac other_slots :=
  unfold settings, SettingsView.written; cbn [SettingsView.window];
  f_equal; apply initial_other_key; discriminate.

(** X19. Each control of the settings view changes, of the six settings
    the calculator reads from storage, at most its own; resetting the
    onboarding changes none. *)
Theorem settings_edit_one (st : SettingsView.State) (x : float) :
  let read w := settings JSON_parse w in
  let s := read (SettingsView.window st) in
  (let s' := read (SettingsView.window
                     (SettingsView.setStartingFee JSON_stringify x st)) in
   s' = mkSettings (startingFee s') (pricePerCubicFoot s) (taxRate s)
          (showTax s) (showDiscount s) (defaultDiscount s))
  /\ (let s' := read (SettingsView.window
                        (SettingsView.setPricePerCubicFoot JSON_stringify
                           x st)) in
      s' = mkSettings (startingFee s) (pricePerCubicFoot s') (taxRate s)
             (showTax s) (showDiscount s) (defaultDiscount s))
  /\ (let s' := read (SettingsView.window
                        (SettingsView.setTaxRate JSON_stringify x st)) in
      s' = mkSettings (startingFee s) (pricePerCubicFoot s) (taxRate s')
             (showTax s) (showDiscount s) (defaultDiscount s))
  /\ (let s' := read (SettingsView.window
                        (SettingsView.toggleShowTax JSON_stringify st)) in
      s' = mkSettings (startingFee s) (pricePerCubicFoot s) (taxRate s)
             (showTax s') (showDiscount s) (defaultDiscount s))
  /\ (let s' := read (SettingsView.window
                        (SettingsView.toggleShowDiscount JSON_stringify
                           st)) in
      s' = mkSettings (startingFee s) (pricePerCubicFoot s) (taxRate s)
             (showTax s) (showDiscount s') (defaultDiscount s))
  /\ (let s' := read (SettingsView.window
                        (SettingsView.setDefaultDiscount JSON_stringify
                           x st)) in
      s' = mkSettings (startingFee s) (pricePerCubicFoot s) (taxRate s)
             (showTax s) (showDiscount s) (defaultDiscount s'))
  /\ read (SettingsView.window
             (SettingsView.resetOnboarding JSON_stringify st)) = s.
Proof.
  cbv zeta. repeat split; other_slots.
Qed.

(** X20. Flipping a switch twice restores it: the view holds the truth
    value of what it held, and storage holds what writing that value once
    would have left. *)
Theorem toggle_twice (st : SettingsView.State) :
  let st2 := SettingsView.toggleShowTax JSON_stringify
               (SettingsView.toggleShowTax JSON_stringify st) in
  let st2' := SettingsView.toggleShowDiscount JSON_stringify
                (SettingsView.toggleShowDiscount JSON_stringify st) in
  SettingsView.showTax st2 = JBool (ToBoolean (SettingsView.showTax st))
  /\ SettingsView.window st2
     = SettingsView.written JSON_stringify st "showTaxCalculator"
         (SettingsView.showTax st)
         (JBool (ToBoolean (SettingsView.showTax st)))
  /\ SettingsView.showDiscount st2'
     = JBool (ToBoolean (SettingsView.showDiscount st))
  /\ SettingsView.window st2'
     = SettingsView.written JSON_stringify st "showDiscount"
         (SettingsView.showDiscount st)
         (JBool (ToBoolean (SettingsView.showDiscount st))).
Proof.
  cbv zeta. unfold SettingsView.toggleShowTax,
    SettingsView.toggleShowDiscount, SettingsView.written; simpl.
  rewrite !negb_involutive.
  destruct (SettingsView.window st) as [localStorage|]; simpl;
    [|repeat split; reflexivity].
  rewrite !insert_insert_eq. repeat split; reflexivity.
Qed.

(** X21. On a first launch, or whenever the onboarding slot cannot be read,
    the app shows the onboarding screen. *)
Theorem first_launch_onboarding (window : option Storage) :
  unreadable JSON_parse window "hasCompletedOnboarding" ->
  App.screen (App.mount JSON_parse window) = App.Onboarding.
Proof.
  intros Hun. unfold App.screen, App.mount; cbn [App.hasCompletedOnboarding].
  now rewrite initial_unreadable.
Qed.

(** X22. Once the onboarding is completed the app shows the current tab,
    and with a storage that reads [true] back as written it opens on the
    calculator at every later launch. *)
Theorem onboarding_completed (st : App.State) (localStorage : Storage) :
  App.window st = Some localStorage ->
  JSON_stringify (JBool true) <> "" ->
  JSON_parse (JSON_stringify (JBool true)) = Some (JBool true) ->
  App.screen (App.onComplete JSON_stringify st) = App.Main (App.activeTab st)
  /\ App.screen (App.mount JSON_parse
                   (App.window (App.onComplete JSON_stringify st)))
     = App.Main App.calculator.
Proof.
  intros Hw Hne Hp. split; [reflexivity|].
  unfold App.screen, App.mount, App.onComplete;
    cbn [App.hasCompletedOnboarding App.window App.activeTab].
  rewrite Hw. now rewrite initial_after_setValue.
Qed.

(** X23. After "Show Onboarding Again" the next launch shows the
    onboarding screen, with a storage that reads [false] back as written
    or with none at all. *)
Theorem onboarding_reset (st : SettingsView.State) :
  JSON_parse (JSON_stringify (JBool false)) = Some (JBool false) ->
  App.screen (App.mount JSON_parse
                (SettingsView.window
                   (SettingsView.resetOnboarding JSON_stringify st)))
  = App.Onboarding.
Proof.
  intros Hp.
  unfold App.screen, App.mount, SettingsView.resetOnboarding,
    SettingsView.written;
    cbn [App.hasCompletedOnboarding SettingsView.window].
  destruct (SettingsView.window st) as [localStorage|]; [|reflexivity].
  unfold setValue, initial; cbn [snd].
  rewrite lookup_insert_eq.
  destruct (decide (JSON_stringify (JBool false) = "")); [reflexivity|].
  now rewrite Hp.
Qed.

End HookExtras.

Section HookExamples.
Import useLocalStorage.

Lemma setValue_other_key_witness :
  initial keyword_parse
    (snd (setValue keyword_stringify (Some {["showDiscount" := "true"]})
            "showTaxCalculator" (JBool false) (Value (JBool true))))
    "showDiscount" (JBool false)
  = initial keyword_parse (Some {["showDiscount" := "true"]})
      "showDiscount" (JBool false).
Proof.
  apply (setValue_other_key keyword_parse keyword_stringify
           (Some {["showDiscount" := "true"]})
           "showTaxCalculator" "showDiscount").
  discriminate.
Defined.

Lemma first_launch_onboarding_witness :
  App.screen (App.mount keyword_parse (Some ∅)) = App.Onboarding.
Proof.
  apply (first_launch_onboarding keyword_parse (Some ∅)).
  unfold unreadable. now rewrite lookup_empty.
Defined.

Lemma onboarding_completed_witness :
  App.screen (App.onComplete keyword_stringify
                (App.mount keyword_parse (Some ∅)))
  = App.Main App.calculator
  /\ App.screen (App.mount keyword_parse
                   (App.window (App.onComplete keyword_stringify
                                  (App.mount keyword_parse (Some ∅)))))
     = App.Main App.calculator.
Proof.
  apply (onboarding_completed keyword_parse keyword_stringify
           (App.mount keyword_parse (Some ∅)) ∅);
    [reflexivity|discriminate|reflexivity].
Defined.

Lemma onboarding_reset_witness :
  App.screen (App.mount keyword_parse
                (SettingsView.window
                   (SettingsView.resetOnboarding keyword_stringify
                      (SettingsView.mount keyword_parse
                         (Some {["hasCompletedOnboarding" := "true"]})))))
  = App.Onboarding.
Proof.
  apply (onboarding_reset keyword_parse keyword_stringify
           (SettingsView.mount keyword_parse
              (Some {["hasCompletedOnboarding" := "true"]}))).
  reflexivity.
Defined.

End HookExamples.
